(** * The Azure blob remote adapter ([dvc/tree/azure.py]), embedded in Rocq

    [AzureTree] is a thin adapter between the host tool's uniform "tree"
    interface and the Azure Blob Storage SDK.  The embedding keeps the shape
    of the Python code:

    - the configuration mapping is a [gmap string string] (a Python [dict]),
      the resolved connection keyword arguments a [gmap string (option string)];
    - the SDK client ([BlockBlobService]) is an interface, a record of
      operations over an abstract remote store; every SDK call can raise;
    - adapter methods live in a state-and-exception monad whose state holds the
      remote store, the [cached_property] slot of the client handle and the
      log of SDK calls issued so far;
    - generators ([_list_paths], [walk_files]) are folds with the consumer's
      loop body as argument, so that the interleaving of page requests and
      per-entry lookups is the one of the Python code. *)

From Stdlib Require Import Ascii String.
From stdpp Require Import gmap strings list fin_maps.

Open Scope string_scope.

(** ** Python values used by the adapter *)

(** Truthiness of a [str]: only the empty string is falsy. *)
Definition str_truthy (s : string) : bool := negb (String.eqb s "").

(** Truthiness of an optional [str] ([None] is falsy). *)
Definition truthy (o : option string) : bool :=
  match o with
  | Some s => str_truthy s
  | None => false
  end.

(** [a or b] on optional strings. *)
Definition py_or (a b : option string) : option string :=
  if truthy a then a else b.

(** [f"{x}"] for an optional string: [None] prints as the word [None]. *)
Definition py_format (o : option string) : string :=
  match o with
  | Some s => s
  | None => "None"
  end.

(** [s.endswith(suffix)]. *)
Fixpoint endswith (s suffix : string) : bool :=
  String.eqb s suffix ||
  match s with
  | EmptyString => false
  | String _ s' => endswith s' suffix
  end.

(** ** Path references *)

Module PathInfo.

(** Modelled from the spec: [dvc/path_info.py] ([CloudURLInfo]) is not among
    the sources.  A path reference is a scheme tag with a (container,
    path-within-container) pair; its textual form is
    [<scheme>://<container>[/<path>]]; a new reference is derived by
    replacing the path component or by appending to it. *)
Record t := mk { scheme : string; bucket : string; path : string }.

(** Everything before the first path separator, and what follows it. *)
Fixpoint split_sep (s : string) : string * option string :=
  match s with
  | EmptyString => (EmptyString, None)
  | String c s' =>
      if Ascii.eqb c "/"%char then (EmptyString, Some s')
      else let '(h, r) := split_sep s' in (String c h, r)
  end.

(** Everything before the first ["://"], and what follows it. *)
Fixpoint split_scheme (s : string) : option (string * string) :=
  match s with
  | EmptyString => None
  | String ":" (String "/" (String "/" rest)) => Some (EmptyString, rest)
  | String c s' =>
      match split_scheme s' with
      | Some (h, r) => Some (String c h, r)
      | None => None
      end
  end.

(** Modelled from the spec: the constructor [PATH_CLS(url)] reads the
    textual form [<scheme>://<container>[/<path>]].  A string without
    ["://"] is outside that form; it is read as a bare path. *)
Definition PATH_CLS (url : string) : t :=
  match split_scheme url with
  | Some (sch, rest) =>
      let '(b, p) := split_sep rest in
      {| scheme := sch; bucket := b; path := default EmptyString p |}
  | None => {| scheme := EmptyString; bucket := EmptyString; path := url |}
  end.

(** Modelled from the spec: [path_info.replace(path=p)] derives a reference
    by replacing the path component. *)
Definition replace (pi : t) (p : string) : t :=
  {| scheme := scheme pi; bucket := bucket pi; path := p |}.

(** Modelled from the spec: [path_info / seg] derives a reference by
    appending to the path component; [path_info / ""] appends a trailing
    separator to the query path. *)
Definition div (pi : t) (seg : string) : t :=
  replace pi (path pi ++ "/" ++ seg).

(** A container name has no path separator in it. *)
Fixpoint no_sep (s : string) : bool :=
  match s with
  | EmptyString => true
  | String c s' => negb (Ascii.eqb c "/"%char) && no_sep s'
  end.

End PathInfo.

Abbreviation PATH_CLS := PathInfo.PATH_CLS.

(** [Schemes.AZURE] ([dvc/scheme.py] is not among the sources; the literal
    ["azure://"] in [__init__] fixes the value). *)
Definition Schemes_AZURE : string := "azure".

(** A character the store allows in a container name: a lower-case letter,
    a digit or a hyphen. *)
Definition container_char (ch : ascii) : bool :=
  let n := N_of_ascii ch in
  (((97 <=? n) && (n <=? 122)) || ((48 <=? n) && (n <=? 57)) || (n =? 45))%N.

(** A container name, by its characters.  (The store also bounds the
    length and the places of the hyphens; every name it accepts is made of
    these characters.) *)
Fixpoint container_name (s : string) : bool :=
  match s with
  | EmptyString => true
  | String ch s' => container_char ch && container_name s'
  end.

(** ** Construction: [AzureTree.__init__] *)

(** The connection keyword arguments, a [dict] from option name to a string
    or [None]. *)
Abbreviation conn_kwargs := (gmap string (option string)).

Record AzureTree := {
  path_info : PathInfo.t;
  _conn_kwargs : conn_kwargs;
}.

(** The class attribute [scheme]. *)
Definition AzureTree_scheme : string := Schemes_AZURE.

Section Construction.

(** [self._az_config.get(section, option, None)]: the lookup in the local
    CLI credential profile (the [knack] library), [None] when the profile
    has no such entry. *)
Variable _az_config : string -> string -> option string.

(** The dict comprehension of [__init__] over
    [["connection_string", "sas_token"]]. *)
Definition conn_kwargs_of (config : gmap string string) (opts : list string) : conn_kwargs :=
  list_to_map ((fun opt => (opt, py_or (config !! opt) (_az_config "storage" opt))) <$> opts).

(** The two attributes [__init__] assigns, [path_info] and [_conn_kwargs],
    from the configuration mapping and the profile.  Its first statement,
    [super().__init__(repo, config)], hands [repo] and the whole mapping to
    the base class [BaseTree], which is not among the sources; what the
    base class keeps of them is no part of this record. *)
Definition __init__ (config : gmap string string) : AzureTree :=
  let url := default "azure://" (config !! "url") in
  let path_info := PATH_CLS url in
  let path_info :=
    if negb (str_truthy (PathInfo.bucket path_info)) then
      let container := _az_config "storage" "container_name" in
      PATH_CLS ("azure://" ++ py_format container)
    else path_info in
  let kw := conn_kwargs_of config ["connection_string"; "sas_token"] in
  let kw := <["account_name" := _az_config "storage" "account"]> kw in
  let kw := <["account_key" := _az_config "storage" "key"]> kw in
  {| path_info := path_info; _conn_kwargs := kw |}.

End Construction.

(** A credential profile for the examples: a default container, an account
    name and an account key, nothing else. *)
Definition profile_example (section opt : string) : option string :=
  if String.eqb section "storage" then
    if String.eqb opt "container_name" then Some "profile-container"
    else if String.eqb opt "account" then Some "profile-account"
    else if String.eqb opt "key" then Some "profile-key"
    else None
  else None.

(** ** Exceptions, outcomes and the adapter monad *)

(** The Python exceptions the adapter meets.  [OtherError] stands for any
    exception the adapter has no name for (transport errors of the SDK,
    [binascii.Error] of the decoder). *)
Inductive exn :=
| NotImplementedError
| AzureMissingResourceHttpError
| TypeError
| OtherError (msg : string).

(** How a computation ends: it returns, it raises, or the model's fuel for
    the [while True] loop ran out. *)
Inductive outcome (A : Type) :=
| Ok (a : A)
| Raise (e : exn)
| OutOfFuel.
Arguments Ok {A} a.
Arguments Raise {A} e.
Arguments OutOfFuel {A}.

(** An entry of a listing, or the result of a property lookup: the blob's
    name and its [properties.content_settings.content_md5]. *)
Record Blob := { name : string; content_md5 : option string }.

(** What [list_blobs] returns: the blobs of one page and [next_marker]. *)
Record Listing := { items : list Blob; next_marker : option string }.

(** The client handle, built from the connection keyword arguments. *)
Record Client := { client_kwargs : conn_kwargs }.

(** The requests the adapter sends through the SDK, as logged. Building the
    client object is logged too; it is the only entry that is no network
    call. *)
Inductive Call :=
| BlockBlobService_new (kw : conn_kwargs)
| list_blobs_call (container : string) (prefix : option string)
    (num_results : option nat) (delimiter : option string) (marker : option string)
| create_container_call (container : string)
| get_blob_properties_call (container blob : string)
| exists_call (container blob : string)
| delete_blob_call (container blob : string).

Definition is_delete_call (c : Call) : bool :=
  match c with
  | delete_blob_call _ _ => true
  | _ => false
  end.

Definition is_construction (c : Call) : bool :=
  match c with
  | BlockBlobService_new _ => true
  | _ => false
  end.

(** The constructor of [azure.storage.blob.BlockBlobService] ([sdk_new],
    which sends no request but can raise on the keyword arguments it is
    given) and the methods the adapter calls, over a remote store of type
    [Store].  Each one either raises ([inl]) or returns ([inr]); the two
    that change the store return the new one. *)
Class BlockBlobService (Store : Type) := {
  sdk_new : conn_kwargs -> exn + Client;
  sdk_list_blobs :
    Client -> Store -> string -> option string -> option nat -> option string ->
    option string -> exn + Listing;
  sdk_create_container : Client -> Store -> string -> exn + Store;
  sdk_get_blob_properties : Client -> Store -> string -> string -> exn + Blob;
  sdk_exists : Client -> Store -> string -> string -> exn + bool;
  sdk_delete_blob : Client -> Store -> string -> string -> exn + Store;
}.

Section World.

Context {Store : Type}.

(** The state the adapter's methods run in: the remote store, the
    instance's [blob_service] slot (filled by [cached_property] on first
    access) and the log of SDK calls. *)
Record World := {
  remote : Store;
  blob_service_slot : option Client;
  calls : list Call;
}.

Definition log_calls (cs : list Call) (w : World) : World :=
  {| remote := remote w; blob_service_slot := blob_service_slot w;
     calls := calls w ++ cs |}.

Definition set_remote (s : Store) (w : World) : World :=
  {| remote := s; blob_service_slot := blob_service_slot w; calls := calls w |}.

Definition set_slot (c : Client) (w : World) : World :=
  {| remote := remote w; blob_service_slot := Some c; calls := calls w |}.

Definition M (A : Type) : Type := World -> outcome A * World.

Definition ret {A} (a : A) : M A := fun w => (Ok a, w).

Definition raise {A} (e : exn) : M A := fun w => (Raise e, w).

Definition out_of_fuel {A} : M A := fun w => (OutOfFuel, w).

Definition bind {A B} (m : M A) (f : A -> M B) : M B :=
  fun w =>
    match m w with
    | (Ok a, w') => f a w'
    | (Raise e, w') => (Raise e, w')
    | (OutOfFuel, w') => (OutOfFuel, w')
    end.

(** [try: m except <the exceptions handler names>: handler e]. *)
Definition try_except {A} (m : M A) (handler : exn -> option (M A)) : M A :=
  fun w =>
    match m w with
    | (Raise e, w') =>
        match handler e with
        | Some h => h w'
        | None => (Raise e, w')
        end
    | r => r
    end.

(** A logged SDK request that reads the store. *)
Definition sdk_query {A} (c : Call) (f : Store -> exn + A) : M A :=
  fun w =>
    let w := log_calls [c] w in
    match f (remote w) with
    | inl e => (Raise e, w)
    | inr a => (Ok a, w)
    end.

(** A logged SDK request that changes the store. *)
Definition sdk_update (c : Call) (f : Store -> exn + Store) : M unit :=
  fun w =>
    let w := log_calls [c] w in
    match f (remote w) with
    | inl e => (Raise e, w)
    | inr s => (Ok tt, set_remote s w)
    end.

(** Lifting a pure computation that can raise. *)
Definition lift {A} (r : exn + A) : M A :=
  fun w => match r with inl e => (Raise e, w) | inr a => (Ok a, w) end.

End World.

Arguments World Store : clear implicits.
Arguments M Store A : clear implicits.

Declare Scope adapter_scope.
Delimit Scope adapter_scope with adapter.
Notation "x <- m ;; k" := (bind m (fun x => k))
  (at level 100, m at next level, right associativity) : adapter_scope.
Notation "m ;;; k" := (bind m (fun _ => k))
  (at level 100, right associativity) : adapter_scope.
Open Scope adapter_scope.

(** ** Decoding the stored content hash *)

(** The double-quote character. *)
Definition dquote : ascii := ascii_of_nat 34.

Fixpoint lstrip (ch : ascii) (s : string) : string :=
  match s with
  | EmptyString => EmptyString
  | String c s' => if Ascii.eqb c ch then lstrip ch s' else s
  end.

Fixpoint rstrip (ch : ascii) (s : string) : string :=
  match s with
  | EmptyString => EmptyString
  | String c s' =>
      let r := rstrip ch s' in
      if Ascii.eqb c ch && String.eqb r EmptyString then EmptyString else String c r
  end.

(** [s.strip(ch)] for a one-character argument. *)
Definition strip (ch : ascii) (s : string) : string := rstrip ch (lstrip ch s).

Definition hex_digit (n : N) : ascii :=
  if (n <? 10)%N then ascii_of_N (48 + n) else ascii_of_N (87 + n).

(** [bytes.hex()]: two lower-case digits per byte. *)
Fixpoint hex (bs : list Byte.byte) : string :=
  match bs with
  | [] => EmptyString
  | b :: bs' =>
      let n := Byte.to_N b in
      String (hex_digit (n / 16)) (String (hex_digit (n mod 16)) (hex bs'))
  end.

(** ** The adapter's methods *)

Section Adapter.

Context {Store : Type} {sdk : BlockBlobService Store}.

(** [base64.b64decode] of the Python standard library; it raises on input
    it cannot decode. *)
Variable b64decode : string -> exn + list Byte.byte.

(** The adapter instance, as [__init__] left it. *)
Variable self : AzureTree.

Local Abbreviation M := (M Store).

(** [for x in l: acc = body(x, acc)]. *)
Fixpoint for_each {A Acc} (body : A -> Acc -> M Acc) (l : list A) (acc : Acc) : M Acc :=
  match l with
  | [] => ret acc
  | x :: l' => acc' <- body x acc ;; for_each body l' acc'
  end.

(** Running a generator to its end and collecting what it yields:
    [list(gen)]. *)
Definition to_list {A} (gen : (A -> list A -> M (list A)) -> list A -> M (list A)) : M (list A) :=
  gen (fun x acc => ret (acc ++ [x])%list) [].

(** The body of the [blob_service] property: build the client, which
    stands outside the [try] so that an error of the constructor leaves the
    property at once, probe the container with a one-item listing, create
    the container when the probe reports it missing. *)
Definition blob_service_body : M Client :=
  blob_service <- (fun w => let w := log_calls [BlockBlobService_new (_conn_kwargs self)] w in
                            match sdk_new (_conn_kwargs self) with
                            | inl e => (Raise e, w)
                            | inr c => (Ok c, w)
                            end) ;;
  let bucket := PathInfo.bucket (path_info self) in
  try_except
    (_ <- sdk_query (list_blobs_call bucket None (Some 1) (Some "/") None)
            (fun s => sdk_list_blobs blob_service s bucket None (Some 1) (Some "/") None) ;;
     ret tt)
    (fun e => match e with
              | AzureMissingResourceHttpError =>
                  Some (sdk_update (create_container_call bucket)
                          (fun s => sdk_create_container blob_service s bucket))
              | _ => None
              end) ;;;
  ret blob_service.

(** [@wrap_prop(threading.Lock()) @cached_property]: the first access that
    returns stores the handle in the instance; later accesses read the
    slot.  The model is sequential, so taking and releasing the lock leave
    no trace. *)
Definition blob_service : M Client :=
  fun w =>
    match blob_service_slot w with
    | Some c => (Ok c, w)
    | None =>
        match blob_service_body w with
        | (Ok c, w') => (Ok c, set_slot c w')
        | r => r
        end
    end.

(** The conditional expression of [_get_md5sum_file]: a truthy
    [file_md5] is stripped of double quotes, decoded and rendered in
    hexadecimal; a falsy one gives [None]. *)
Definition md5sum_of (file_md5 : option string) : exn + option string :=
  match file_md5 with
  | Some s =>
      if str_truthy s then
        match b64decode (strip dquote s) with
        | inl e => inl e
        | inr bs => inr (Some (hex bs))
        end
      else inr None
  | None => inr None
  end.

Definition _get_md5sum_file (bucket path : string) : M (option string) :=
  blob_service <- blob_service ;;
  blob <- sdk_query (get_blob_properties_call bucket path)
            (fun s => sdk_get_blob_properties blob_service s bucket path) ;;
  lift (md5sum_of (content_md5 blob)).

Definition isdir (path_info : PathInfo.t) : M bool :=
  md5 <- _get_md5sum_file (PathInfo.bucket path_info) (PathInfo.path path_info) ;;
  ret (match md5 with None => true | Some _ => false end).

Definition get_file_hash (path_info : PathInfo.t) : M (option string) :=
  _get_md5sum_file (PathInfo.bucket path_info) (PathInfo.path path_info).

(** [exists] is a keyword here, hence the trailing underscore. *)
Definition exists_ (path_info : PathInfo.t) (use_dvcignore : bool) : M bool :=
  blob_service <- blob_service ;;
  sdk_query (exists_call (PathInfo.bucket path_info) (PathInfo.path path_info))
    (fun s => sdk_exists blob_service s (PathInfo.bucket path_info) (PathInfo.path path_info)).

(** The [while True] loop of [_list_paths], one iteration per unit of
    fuel; [body] is what the consumer does with each yielded name. *)
Fixpoint _list_paths_loop {Acc} (fuel : nat) (blob_service : Client)
    (bucket prefix : string) (marker : option string)
    (body : string -> Acc -> M Acc) (acc : Acc) : M Acc :=
  match fuel with
  | O => out_of_fuel
  | S fuel' =>
      blobs <- sdk_query (list_blobs_call bucket (Some prefix) None None marker)
                 (fun s => sdk_list_blobs blob_service s bucket (Some prefix) None None marker) ;;
      acc' <- for_each (fun blob => body (name blob)) (items blobs) acc ;;
      if negb (truthy (next_marker blobs)) then ret acc'
      else _list_paths_loop fuel' blob_service bucket prefix (next_marker blobs) body acc'
  end.

Definition _list_paths {Acc} (fuel : nat) (bucket prefix : string)
    (body : string -> Acc -> M Acc) (acc : Acc) : M Acc :=
  blob_service <- blob_service ;;
  _list_paths_loop fuel blob_service bucket prefix None body acc.

(** [kwargs] maps a keyword to the truth value of its argument.
    [_list_paths] takes no keyword, so any left after [pop] is a
    [TypeError] of the call. *)
Definition walk_files {Acc} (fuel : nat) (path_info : PathInfo.t) (kwargs : gmap string bool)
    (body : PathInfo.t -> Acc -> M Acc) (acc : Acc) : M Acc :=
  let prefix := default false (kwargs !! "prefix") in
  let kwargs := delete "prefix" kwargs in
  let path_info := if negb prefix then PathInfo.div path_info EmptyString else path_info in
  if negb (bool_decide (kwargs = ∅)) then raise TypeError
  else
    _list_paths fuel (PathInfo.bucket path_info) (PathInfo.path path_info)
      (fun fname acc =>
         if endswith fname "/" then ret acc
         else
           md5 <- _get_md5sum_file (PathInfo.bucket path_info) fname ;;
           match md5 with
           | None => ret acc
           | Some _ => body (PathInfo.replace path_info fname) acc
           end)
      acc.

Definition remove (path_info : PathInfo.t) : M unit :=
  if negb (String.eqb (PathInfo.scheme path_info) AzureTree_scheme) then
    raise NotImplementedError
  else
    blob_service <- blob_service ;;
    sdk_update (delete_blob_call (PathInfo.bucket path_info) (PathInfo.path path_info))
      (fun s => sdk_delete_blob blob_service s (PathInfo.bucket path_info) (PathInfo.path path_info)).

End Adapter.

(** ** Vocabulary of the properties *)

Section Vocabulary.

Context {Store : Type} {sdk : BlockBlobService Store}.
Variable b64decode : string -> exn + list Byte.byte.

(** The outcome of a call that raises or returns. *)
Definition outcome_of {A} (r : exn + A) : outcome A :=
  match r with
  | inl e => Raise e
  | inr a => Ok a
  end.

(** The store the first access to the client handle of [self] leaves
    behind: the adapter's container is created when the client was built
    and the probe says the container is missing, nothing else changes. *)
Definition after_bootstrap (self : AzureTree) (s : Store) : Store :=
  let bucket := PathInfo.bucket (path_info self) in
  match sdk_new (_conn_kwargs self) with
  | inl _ => s
  | inr c =>
      match sdk_list_blobs c s bucket None (Some 1) (Some "/") None with
      | inl AzureMissingResourceHttpError =>
          match sdk_create_container c s bucket with
          | inr s' => s'
          | inl _ => s
          end
      | _ => s
      end
  end.

(** The requests of a first access: the construction and, when it
    returns, the probe and, when the probe says the container is missing,
    its creation. *)
Definition bootstrap_calls (self : AzureTree) (s : Store) : list Call :=
  let bucket := PathInfo.bucket (path_info self) in
  BlockBlobService_new (_conn_kwargs self) ::
  match sdk_new (_conn_kwargs self) with
  | inl _ => []
  | inr c =>
      list_blobs_call bucket None (Some 1) (Some "/") None ::
      match sdk_list_blobs c s bucket None (Some 1) (Some "/") None with
      | inl AzureMissingResourceHttpError => [create_container_call bucket]
      | _ => []
      end
  end.

(** The pages the service hands out for the listing of [bucket] under
    [prefix], from marker [m] on: every page but the last carries a truthy
    continuation marker, and the next page is the one requested with it. *)
Inductive pages_from (c : Client) (s : Store) (bucket prefix : string) :
    option string -> list Listing -> Prop :=
| pages_last m pg :
    sdk_list_blobs c s bucket (Some prefix) None None m = inr pg ->
    truthy (next_marker pg) = false ->
    pages_from c s bucket prefix m [pg]
| pages_more m pg rest :
    sdk_list_blobs c s bucket (Some prefix) None None m = inr pg ->
    truthy (next_marker pg) = true ->
    pages_from c s bucket prefix (next_marker pg) rest ->
    pages_from c s bucket prefix m (pg :: rest).

(** The page requests for these pages, in order: the first with marker [m],
    each later one with the marker of the page before it. *)
Fixpoint page_requests (bucket prefix : string) (m : option string)
    (pages : list Listing) : list Call :=
  match pages with
  | [] => []
  | pg :: rest =>
      list_blobs_call bucket (Some prefix) None None m
      :: page_requests bucket prefix (next_marker pg) rest
  end.

(** The names on the pages, page after page. *)
Definition listed_names (pages : list Listing) : list string :=
  List.concat (List.map (fun pg => List.map name (items pg)) pages).

(** What the hash lookup of a name gives on store [s], without the log. *)
Definition hash_lookup (c : Client) (s : Store) (bucket fname : string) : exn + option string :=
  match sdk_get_blob_properties c s bucket fname with
  | inl e => inl e
  | inr blob => md5sum_of b64decode (content_md5 blob)
  end.

(** A listed name that [walk_files] keeps: no trailing separator, and a
    content hash is present. *)
Definition is_file (c : Client) (s : Store) (bucket fname : string) : bool :=
  negb (endswith fname "/") &&
  match hash_lookup c s bucket fname with
  | inr (Some _) => true
  | _ => false
  end.

(** The path reference [walk_files] lists under: the query itself in prefix
    mode, the query with a trailing separator otherwise. *)
Definition listing_root (path_info : PathInfo.t) (kwargs : gmap string bool) : PathInfo.t :=
  if default false (kwargs !! "prefix") then path_info
  else PathInfo.div path_info EmptyString.

(** Same scheme and same container. *)
Definition same_container (p q : PathInfo.t) : bool :=
  String.eqb (PathInfo.scheme p) (PathInfo.scheme q) &&
  String.eqb (PathInfo.bucket p) (PathInfo.bucket q).

End Vocabulary.

(** ** A reference decoder and an in-memory store for the examples *)

Module Base64.

(** The value of a character of the standard alphabet. *)
Definition value (c : ascii) : option N :=
  let n := N_of_ascii c in
  if ((65 <=? n) && (n <=? 90))%N then Some (n - 65)%N
  else if ((97 <=? n) && (n <=? 122))%N then Some (n - 71)%N
  else if ((48 <=? n) && (n <=? 57))%N then Some (n + 4)%N
  else if (n =? 43)%N then Some 62%N
  else if (n =? 47)%N then Some 63%N
  else None.

Definition byte_of (n : N) : Byte.byte := default Byte.x00 (Byte.of_N n).

(** The decoding loop of the standard library ([binascii.a2b_base64], not
    strict), character by character: [quad_pos] is the position in the
    current group of four, [leftchar] the bits not yet written, [pads] the
    padding characters seen since the last character of the alphabet.  A
    character outside the alphabet is skipped; padding that completes a
    group ends the decoding; input that ends inside a group is an error
    ([None]), and what was decoded until then is dropped. *)
Fixpoint a2b_base64 (s : string) (quad_pos : nat) (leftchar : N) (pads : nat) :
    option (list Byte.byte) :=
  match s with
  | EmptyString => if Nat.eqb quad_pos 0 then Some [] else None
  | String ch s' =>
      if Ascii.eqb ch "="%char then
        if Nat.leb 2 quad_pos then
          if Nat.leb 4 (quad_pos + S pads) then Some []
          else a2b_base64 s' quad_pos leftchar (S pads)
        else a2b_base64 s' quad_pos leftchar pads
      else
        match value ch with
        | None => a2b_base64 s' quad_pos leftchar pads
        | Some v =>
            match quad_pos with
            | 0 => a2b_base64 s' 1 v 0
            | 1 => cons (byte_of (leftchar * 4 + v / 16)%N) <$> a2b_base64 s' 2 (v mod 16)%N 0
            | 2 => cons (byte_of (leftchar * 16 + v / 4)%N) <$> a2b_base64 s' 3 (v mod 4)%N 0
            | _ => cons (byte_of (leftchar * 64 + v)%N) <$> a2b_base64 s' 0 0%N 0
            end
        end
  end.

(** Every character is in the ASCII range. *)
Fixpoint is_ascii (s : string) : bool :=
  match s with
  | EmptyString => true
  | String ch s' => (N_of_ascii ch <? 128)%N && is_ascii s'
  end.

(** [base64.b64decode] on a [str], with its default arguments: a
    [ValueError] on a character outside ASCII, a [binascii.Error] on
    incorrect padding; characters outside the alphabet are discarded. *)
Definition b64decode (s : string) : exn + list Byte.byte :=
  if is_ascii s then
    match a2b_base64 s 0 0%N 0 with
    | Some bs => inr bs
    | None => inl (OtherError "binascii.Error: Incorrect padding")
    end
  else inl (OtherError "ValueError: string argument should contain only ASCII characters").

End Base64.

Module MemStore.

(** Containers by name, each with its blobs in listing order. *)
Abbreviation t := (gmap string (list Blob)).

Fixpoint drop_until (m : string) (l : list Blob) : list Blob :=
  match l with
  | [] => []
  | b :: l' => if String.eqb (name b) m then l else drop_until m l'
  end.

Definition lookup_blob (blobs : list Blob) (p : string) : option Blob :=
  List.find (fun b => String.eqb (name b) p) blobs.

Section Service.

(** The number of entries the service puts on a page when the request
    does not say. *)
Variable page_size : nat.

(** A listing page: the blobs under the prefix from the marker on; the
    marker of the next page is the name of its first blob.  The
    delimiter is ignored. *)
Definition list_blobs (_ : Client) (s : t) (container : string)
    (prefix : option string) (num_results : option nat)
    (delimiter marker : option string) : exn + Listing :=
  match s !! container with
  | None => inl AzureMissingResourceHttpError
  | Some blobs =>
      let under := List.filter (fun b => String.prefix (default EmptyString prefix) (name b)) blobs in
      let rest := match marker with
                  | Some m => if str_truthy m then drop_until m under else under
                  | None => under
                  end in
      let n := default page_size num_results in
      inr {| items := take n rest; next_marker := name <$> head (drop n rest) |}
  end.

Definition create_container (_ : Client) (s : t) (container : string) : exn + t :=
  match s !! container with
  | None => inr (<[container := []]> s)
  | Some _ => inr s
  end.

(** As in the SDK, a request for a blob that is not there raises
    [AzureMissingResourceHttpError]. *)
Definition get_blob_properties (_ : Client) (s : t) (container blob : string) : exn + Blob :=
  match s !! container with
  | None => inl AzureMissingResourceHttpError
  | Some blobs =>
      match lookup_blob blobs blob with
      | Some b => inr b
      | None => inl AzureMissingResourceHttpError
      end
  end.

Definition exists_blob (_ : Client) (s : t) (container blob : string) : exn + bool :=
  match s !! container with
  | None => inr false
  | Some blobs => inr (bool_decide (is_Some (lookup_blob blobs blob)))
  end.

Definition delete_blob (_ : Client) (s : t) (container blob : string) : exn + t :=
  match s !! container with
  | None => inl AzureMissingResourceHttpError
  | Some blobs =>
      match lookup_blob blobs blob with
      | Some _ =>
          inr (<[container := List.filter (fun b => negb (String.eqb (name b) blob)) blobs]> s)
      | None => inl AzureMissingResourceHttpError
      end
  end.

(** As in the SDK, the constructor wants a connection string or an
    account name, and raises a [ValueError] when it is given neither. *)
Definition new (kw : conn_kwargs) : exn + Client :=
  if truthy (default None (kw !! "connection_string"))
     || truthy (default None (kw !! "account_name"))
  then inr {| client_kwargs := kw |}
  else inl (OtherError "ValueError: You need to provide an account name").

#[export] Instance service : BlockBlobService t := {
  sdk_new := new;
  sdk_list_blobs := list_blobs;
  sdk_create_container := create_container;
  sdk_get_blob_properties := get_blob_properties;
  sdk_exists := exists_blob;
  sdk_delete_blob := delete_blob;
}.

End Service.

(** A world in which the adapter has not been used yet. *)
Definition fresh (s : t) : World t :=
  {| remote := s; blob_service_slot := None; calls := [] |}.

End MemStore.

(** The base64 form of the MD5 digest of the empty byte string. *)
Definition md5_empty_b64 : string := "1B2M2Y8AsgTpgAmY7PhCfg==".

(** The container of the spec's listing example: [a/x] with a stored hash,
    the directory marker [a/] and [a/y] without one. *)
Definition store_example : MemStore.t :=
  {[ "c" := [ {| name := "a/"; content_md5 := None |};
              {| name := "a/x"; content_md5 := Some md5_empty_b64 |};
              {| name := "a/y"; content_md5 := None |} ] ]}.

(** An adapter on container [c] of that store. *)
Definition tree_example : AzureTree :=
  __init__ profile_example {["url" := "azure://c"]}.

(** The in-memory service with one entry per page, so that the listing of
    the example container takes three pages. *)
Definition sdk_example : BlockBlobService MemStore.t := MemStore.service 1.

(** The example store before the adapter is used, and once the client
    handle is in its slot. *)
Definition world_fresh : World MemStore.t := MemStore.fresh store_example.

Definition client_example : Client := {| client_kwargs := _conn_kwargs tree_example |}.

Definition world_ready : World MemStore.t :=
  snd (blob_service (sdk := sdk_example) tree_example world_fresh).

(** The three pages of the listing of container [c] under [a/]. *)
Definition pages_example : list Listing :=
  [ {| items := [ {| name := "a/"; content_md5 := None |} ];
       next_marker := Some "a/x" |};
    {| items := [ {| name := "a/x"; content_md5 := Some md5_empty_b64 |} ];
       next_marker := Some "a/y" |};
    {| items := [ {| name := "a/y"; content_md5 := None |} ];
       next_marker := None |} ].

(** A configuration that sets the account name and key explicitly, under
    the option names of the profile and under those of the SDK. *)
Definition config_example : gmap string string :=
  {[ "url" := "azure://c";
     "account" := "config-account"; "key" := "config-key";
     "account_name" := "config-account"; "account_key" := "config-key" ]}.

(** ** Vocabulary of the further properties *)

(** A request that changes the remote store. *)
Definition is_store_update (c : Call) : bool :=
  match c with
  | create_container_call _ | delete_blob_call _ _ => true
  | _ => false
  end.

(** A lower-case hexadecimal digit. *)
Definition is_hex_lower (ch : ascii) : bool :=
  let n := N_of_ascii ch in
  (((48 <=? n) && (n <=? 57)) || ((97 <=? n) && (n <=? 102)))%N.

Section FurtherVocabulary.

Context {Store : Type} {sdk : BlockBlobService Store}.
Variable b64decode : string -> exn + list Byte.byte.

(** State [w'] still has handle [c] in the slot and logs no client
    construction beyond those of [w]. *)
Definition handle_kept (c : Client) (w w' : World Store) : Prop :=
  blob_service_slot w' = Some c /\
  List.filter is_construction (calls w') = List.filter is_construction (calls w).

(** Moreover the remote store is the one of [w] and no store-changing
    request was logged. *)
Definition quiet (c : Client) (w w' : World Store) : Prop :=
  handle_kept c w w' /\
  remote w' = remote w /\
  List.filter is_store_update (calls w') = List.filter is_store_update (calls w).

(** The names of a page that are no directory markers. *)
Definition looked_up (names : list string) : list string :=
  List.filter (fun fname => negb (endswith fname "/")) names.

(** The requests of a walk whose lookups all return: page by page, the page
    request and then one property request for each entry of the page that
    is no directory marker. *)
Fixpoint walk_requests (root : PathInfo.t) (m : option string) (pages : list Listing) : list Call :=
  match pages with
  | [] => []
  | pg :: rest =>
      (list_blobs_call (PathInfo.bucket root) (Some (PathInfo.path root)) None None m
       :: List.map (get_blob_properties_call (PathInfo.bucket root))
            (looked_up (List.map name (items pg))))
      ++ walk_requests root (next_marker pg) rest
  end%list.

(** What the loop body of [walk_files] makes of the names of one page on
    store [s]: how it ends, with the path references collected, and the
    property requests it sends.  It stops at the first lookup that raises. *)
Fixpoint walk_names_ref (c : Client) (s : Store) (root : PathInfo.t)
    (names : list string) (acc : list PathInfo.t) : outcome (list PathInfo.t) * list Call :=
  match names with
  | [] => (Ok acc, [])
  | fname :: rest =>
      if endswith fname "/" then walk_names_ref c s root rest acc
      else
        let call := get_blob_properties_call (PathInfo.bucket root) fname in
        match hash_lookup b64decode c s (PathInfo.bucket root) fname with
        | inl e => (Raise e, [call])
        | inr None =>
            (fst (walk_names_ref c s root rest acc),
             call :: snd (walk_names_ref c s root rest acc))
        | inr (Some _) =>
            (fst (walk_names_ref c s root rest (acc ++ [PathInfo.replace root fname])%list),
             call :: snd (walk_names_ref c s root rest (acc ++ [PathInfo.replace root fname])%list))
        end
  end.

(** The same over the pages of a listing, with the page requests. *)
Fixpoint walk_pages_ref (c : Client) (s : Store) (root : PathInfo.t) (m : option string)
    (pages : list Listing) (acc : list PathInfo.t) : outcome (list PathInfo.t) * list Call :=
  match pages with
  | [] => (Ok acc, [])
  | pg :: rest =>
      let req := list_blobs_call (PathInfo.bucket root) (Some (PathInfo.path root)) None None m in
      let here := walk_names_ref c s root (List.map name (items pg)) acc in
      match fst here with
      | Ok acc' =>
          (fst (walk_pages_ref c s root (next_marker pg) rest acc'),
           req :: snd here ++ snd (walk_pages_ref c s root (next_marker pg) rest acc'))%list
      | Raise e => (Raise e, req :: snd here)
      | OutOfFuel => (OutOfFuel, req :: snd here)
      end
  end.

End FurtherVocabulary.

(** ** Sequences of operations *)

Section Operations.

Context {Store : Type} {sdk : BlockBlobService Store}.
Variable b64decode : string -> exn + list Byte.byte.
Variable self : AzureTree.

(** A call of one of the adapter's methods, with its arguments; the two
    generators are run to their end. *)
Inductive Op :=
| op_exists (path_info : PathInfo.t) (use_dvcignore : bool)
| op_isdir (path_info : PathInfo.t)
| op_get_file_hash (path_info : PathInfo.t)
| op_list_paths (fuel : nat) (bucket prefix : string)
| op_walk_files (fuel : nat) (path_info : PathInfo.t) (kwargs : gmap string bool)
| op_remove (path_info : PathInfo.t).

Definition is_read (o : Op) : bool :=
  match o with
  | op_remove _ => false
  | _ => true
  end.

(** The state a call leaves, however it ends. *)
Definition run_op (o : Op) (w : World Store) : World Store :=
  match o with
  | op_exists pi flag => snd (exists_ self pi flag w)
  | op_isdir pi => snd (isdir b64decode self pi w)
  | op_get_file_hash pi => snd (get_file_hash b64decode self pi w)
  | op_list_paths fuel bucket prefix => snd (to_list (_list_paths self fuel bucket prefix) w)
  | op_walk_files fuel pi kwargs => snd (to_list (walk_files b64decode self fuel pi kwargs) w)
  | op_remove pi => snd (remove self pi w)
  end.

(** The state after a sequence of calls, each made whatever the one before
    returned or raised. *)
Definition run_ops (ops : list Op) (w : World Store) : World Store :=
  List.fold_left (fun w o => run_op o w) ops w.

End Operations.

(** ** Two more services for the examples *)

Module DownService.

(** A service that cannot be reached: every request raises. *)
Definition unreachable : exn := OtherError "unreachable".

#[export] Instance service : BlockBlobService unit := {
  sdk_new := fun kw => inr {| client_kwargs := kw |};
  sdk_list_blobs := fun _ _ _ _ _ _ _ => inl unreachable;
  sdk_create_container := fun _ _ _ => inl unreachable;
  sdk_get_blob_properties := fun _ _ _ _ => inl unreachable;
  sdk_exists := fun _ _ _ _ => inl unreachable;
  sdk_delete_blob := fun _ _ _ _ => inl unreachable;
}.

Definition fresh : World unit :=
  {| remote := tt; blob_service_slot := None; calls := [] |}.

End DownService.

Module StuckService.

(** A service whose every listing page carries the same continuation
    marker. *)
Definition page : Listing :=
  {| items := [ {| name := "a/x"; content_md5 := None |} ]; next_marker := Some "again" |}.

#[export] Instance service : BlockBlobService unit := {
  sdk_new := fun kw => inr {| client_kwargs := kw |};
  sdk_list_blobs := fun _ _ _ _ _ _ _ => inr page;
  sdk_create_container := fun _ s _ => inr s;
  sdk_get_blob_properties := fun _ _ _ blob => inr {| name := blob; content_md5 := None |};
  sdk_exists := fun _ _ _ _ => inr true;
  sdk_delete_blob := fun _ s _ _ => inr s;
}.

Definition fresh : World unit :=
  {| remote := tt; blob_service_slot := None; calls := [] |}.

End StuckService.




(** An adapter built with nothing configured: no URL, an empty profile. *)
Definition tree_unconfigured : AzureTree := __init__ (fun _ _ => None) ∅.

(** Two configurations that differ only in options the adapter does not
    know. *)
Definition config_plain : gmap string string :=
  {[ "url" := "azure://c"; "sas_token" := "token" ]}.

Definition config_noisy : gmap string string :=
  {[ "url" := "azure://c"; "sas_token" := "token";
     "account" := "config-account"; "verify" := "true" ]}.

(** * Properties *)

(** ** Python values *)

Lemma str_truthy_false s : str_truthy s = false <-> s = EmptyString.
Proof.
  unfold str_truthy. rewrite negb_false_iff. apply String.eqb_eq.
Qed.

Lemma py_or_explicit v p : v <> EmptyString -> py_or (Some v) p = Some v.
Proof.
  intros Hv. unfold py_or, truthy.
  destruct (str_truthy v) eqn:E; [reflexivity|].
  apply str_truthy_false in E. contradiction.
Qed.

Lemma py_or_absent p : py_or None p = p.
Proof. reflexivity. Qed.

Lemma py_or_empty p : py_or (Some EmptyString) p = p.
Proof. reflexivity. Qed.

(** ** Path references *)

Lemma split_sep_no_sep s : PathInfo.no_sep s = true -> PathInfo.split_sep s = (s, None).
Proof.
  induction s as [|c s IH]; simpl; [reflexivity|].
  destruct (Ascii.eqb c "/"); simpl; [discriminate|].
  intros H. by rewrite (IH H).
Qed.

Lemma split_scheme_azure rest :
  PathInfo.split_scheme ("azure://" ++ rest) = Some ("azure", rest).
Proof. reflexivity. Qed.

Lemma PATH_CLS_azure_container C :
  PathInfo.no_sep C = true ->
  PATH_CLS ("azure://" ++ C) = PathInfo.mk "azure" C EmptyString.
Proof.
  intros H. unfold PathInfo.PATH_CLS.
  rewrite split_scheme_azure, (split_sep_no_sep _ H). reflexivity.
Qed.

Example init_default_url :
  path_info (__init__ profile_example ∅) = PathInfo.mk "azure" "profile-container" EmptyString.
Proof. reflexivity. Qed.

Example init_explicit_url :
  path_info (__init__ profile_example {["url" := "azure://c/some/dir"]})
  = PathInfo.mk "azure" "c" "some/dir".
Proof. vm_compute. reflexivity. Qed.

(** With neither a URL nor a profile entry the container is the word
    [None], the rendering of Python's [None] by the f-string. *)
Example init_nothing_configured :
  path_info (__init__ (fun _ _ => None) ∅) = PathInfo.mk "azure" "None" EmptyString.
Proof. reflexivity. Qed.

(** ** Construction *)

(** C1, as stated, fails: an explicit [account] or [key] (or [account_name],
    [account_key]) of the configuration mapping is not looked at; the account
    name and key of the connection are the profile's. *)
Lemma explicit_account_key_ignored :
  config_example !! "account" = Some "config-account" /\
  config_example !! "key" = Some "config-key" /\
  _conn_kwargs (__init__ profile_example config_example) !! "account_name"
    = Some (Some "profile-account") /\
  _conn_kwargs (__init__ profile_example config_example) !! "account_key"
    = Some (Some "profile-key").
Proof. repeat split; vm_compute; reflexivity. Qed.

(** C1, amended: the connection string and the SAS token are the explicit
    configuration value when it is present and not empty, and the profile's
    value otherwise; the account name and the account key are always the
    profile's entries [account] and [key], whatever the configuration
    holds. *)
Theorem conn_kwargs_resolution (az : string -> string -> option string)
    (config : gmap string string) :
  _conn_kwargs (__init__ az config) !! "connection_string"
    = Some (py_or (config !! "connection_string") (az "storage" "connection_string")) /\
  _conn_kwargs (__init__ az config) !! "sas_token"
    = Some (py_or (config !! "sas_token") (az "storage" "sas_token")) /\
  _conn_kwargs (__init__ az config) !! "account_name" = Some (az "storage" "account") /\
  _conn_kwargs (__init__ az config) !! "account_key" = Some (az "storage" "key").
Proof.
  unfold __init__, conn_kwargs_of; simpl.
  repeat split; by simplify_map_eq.
Qed.

(** In the modelled textual form, a name without a path separator that is
    pasted into [azure://] is read back as the container. *)
Lemma default_container_from_profile (az : string -> string -> option string)
    (config : gmap string string) (C : string) :
  str_truthy (PathInfo.bucket (PATH_CLS (default "azure://" (config !! "url")))) = false ->
  az "storage" "container_name" = Some C ->
  PathInfo.no_sep C = true ->
  path_info (__init__ az config) = PathInfo.mk "azure" C EmptyString.
Proof.
  intros Hurl Haz HC. unfold __init__; simpl.
  rewrite Hurl, Haz; simpl.
  change (String "a" (String "z" (String "u" (String "r" (String "e"
           (String ":" (String "/" (String "/" C))))))))
    with ("azure://" ++ C).
  by apply PATH_CLS_azure_container.
Qed.

Lemma container_name_no_sep C : container_name C = true -> PathInfo.no_sep C = true.
Proof.
  induction C as [|ch C IH]; simpl; [done|].
  intros [Hch HC]%andb_prop. rewrite (IH HC), andb_true_r.
  destruct (Ascii.eqb ch "/") eqn:E; [|done].
  apply Ascii.eqb_eq in E. subst ch. discriminate Hch.
Qed.

(** C8: when the URL option names no container and the profile stores a
    default container name [C], the container of the adapter's path
    reference is [C] after construction. *)
Theorem default_container_is_profile_name (az : string -> string -> option string)
    (config : gmap string string) (C : string) :
  str_truthy (PathInfo.bucket (PATH_CLS (default "azure://" (config !! "url")))) = false ->
  az "storage" "container_name" = Some C ->
  container_name C = true ->
  PathInfo.bucket (path_info (__init__ az config)) = C.
Proof.
  intros Hurl Haz HC.
  by rewrite (default_container_from_profile az config C Hurl Haz (container_name_no_sep C HC)).
Qed.

Lemma default_container_is_profile_name_witness :
  PathInfo.bucket (path_info (__init__ profile_example ∅)) = "profile-container".
Proof.
  apply (default_container_is_profile_name profile_example ∅ "profile-container");
    reflexivity.
Defined.

(** ** The lazily built client handle *)

Section ClientFacts.

Context {Store : Type} {sdk : BlockBlobService Store}.
Variable self : AzureTree.

Lemma log_calls_app cs1 cs2 (w : World Store) :
  log_calls cs2 (log_calls cs1 w) = log_calls (cs1 ++ cs2) w.
Proof. unfold log_calls; simpl. by rewrite <- app_assoc. Qed.

Lemma blob_service_cached (w : World Store) c :
  blob_service_slot w = Some c -> blob_service self w = (Ok c, w).
Proof. intros H. unfold blob_service. by rewrite H. Qed.

(** A first access, whatever its outcome, sends the bootstrap requests and
    leaves the bootstrap store. *)
Lemma blob_service_first (w : World Store) :
  blob_service_slot w = None ->
  remote (snd (blob_service self w)) = after_bootstrap self (remote w) /\
  calls (snd (blob_service self w)) = (calls w ++ bootstrap_calls self (remote w))%list /\
  fst (blob_service self w) <> OutOfFuel.
Proof.
  intros H.
  unfold blob_service, blob_service_body, bind, try_except, sdk_query, sdk_update,
    after_bootstrap, bootstrap_calls, ret.
  rewrite H; simpl.
  destruct (sdk_new (_conn_kwargs self)) as [e0|c]; simpl; [done|].
  destruct (sdk_list_blobs c _ _ _ _ _ _) as [[]|pg]; simpl;
    rewrite <- ?app_assoc; simpl; try done.
  destruct (sdk_create_container c _ _) as [e|s']; simpl;
    rewrite <- ?app_assoc; simpl; done.
Qed.

Lemma blob_service_remote (w : World Store) :
  remote (snd (blob_service self w)) =
  match blob_service_slot w with
  | Some _ => remote w
  | None => after_bootstrap self (remote w)
  end.
Proof.
  destruct (blob_service_slot w) as [c|] eqn:E.
  - by rewrite (blob_service_cached _ _ E).
  - by apply blob_service_first.
Qed.

Lemma blob_service_calls (w : World Store) :
  calls (snd (blob_service self w)) =
  match blob_service_slot w with
  | Some _ => calls w
  | None => (calls w ++ bootstrap_calls self (remote w))%list
  end.
Proof.
  destruct (blob_service_slot w) as [c|] eqn:E.
  - by rewrite (blob_service_cached _ _ E).
  - by apply blob_service_first.
Qed.

(** A handle that was returned is in the slot. *)
Lemma blob_service_fills_slot (w w1 : World Store) c :
  blob_service self w = (Ok c, w1) -> blob_service_slot w1 = Some c.
Proof.
  unfold blob_service.
  destruct (blob_service_slot w) as [c0|] eqn:E.
  - intros [= <- <-]. exact E.
  - destruct (blob_service_body self w) as [[c1| |] w']; intros [= <- <-]; reflexivity.
Qed.

Lemma blob_service_again (w w1 : World Store) c :
  blob_service self w = (Ok c, w1) -> blob_service self w1 = (Ok c, w1).
Proof. intros H. apply blob_service_cached. by eapply blob_service_fills_slot. Qed.

Lemma bootstrap_calls_no_delete s :
  List.filter is_delete_call (bootstrap_calls self s) = [].
Proof.
  unfold bootstrap_calls.
  destruct (sdk_new (_conn_kwargs self)) as [e0|c]; [done|].
  by destruct (sdk_list_blobs c _ _ _ _ _ _) as [[]|].
Qed.

(** Getting the handle sends no deletion. *)
Lemma blob_service_no_delete (w : World Store) :
  List.filter is_delete_call (calls (snd (blob_service self w)))
  = List.filter is_delete_call (calls w).
Proof.
  rewrite blob_service_calls. destruct (blob_service_slot w); [done|].
  by rewrite List.filter_app, bootstrap_calls_no_delete, app_nil_r.
Qed.

(** The client object is built at most once by sequential accesses: an
    access that finds the slot filled builds nothing. *)
Lemma blob_service_constructions (w : World Store) :
  List.filter is_construction (calls (snd (blob_service self w))) =
  match blob_service_slot w with
  | Some _ => List.filter is_construction (calls w)
  | None => (List.filter is_construction (calls w)
             ++ [BlockBlobService_new (_conn_kwargs self)])%list
  end.
Proof.
  rewrite blob_service_calls. destruct (blob_service_slot w); [done|].
  rewrite List.filter_app. f_equal.
  unfold bootstrap_calls.
  destruct (sdk_new (_conn_kwargs self)) as [e0|c]; [done|].
  by destruct (sdk_list_blobs c _ _ _ _ _ _) as [[]|].
Qed.

End ClientFacts.

(** ** Single-request operations *)

Section OperationFacts.

Context {Store : Type} {sdk : BlockBlobService Store}.
Variable b64decode : string -> exn + list Byte.byte.
Variable self : AzureTree.

Lemma bind_blob_service {A} (k : Client -> M Store A) (w w1 : World Store) c :
  blob_service self w = (Ok c, w1) ->
  bind (blob_service self) k w = k c w1.
Proof. intros H. unfold bind. by rewrite H. Qed.

(** The hash lookup once the handle is there: one property request, then
    the pure decoding. *)
Lemma _get_md5sum_file_run (w w1 : World Store) c bucket path :
  blob_service self w = (Ok c, w1) ->
  _get_md5sum_file b64decode self bucket path w =
  (outcome_of (hash_lookup b64decode c (remote w1) bucket path),
   log_calls [get_blob_properties_call bucket path] w1).
Proof.
  intros H. unfold _get_md5sum_file. rewrite (bind_blob_service _ _ _ _ H).
  unfold bind, sdk_query, lift, hash_lookup; simpl.
  destruct (sdk_get_blob_properties _ _ _ _) as [e|blob]; simpl; [done|].
  by destruct (md5sum_of _ _).
Qed.

Lemma md5sum_of_falsy file_md5 :
  truthy file_md5 = false -> md5sum_of b64decode file_md5 = inr None.
Proof.
  destruct file_md5 as [s|]; simpl; [|done].
  unfold md5sum_of. by intros ->.
Qed.

(** C2, amended: get-content-hash returns an absent result when the object
    exists and its stored content hash is missing or empty.  It installs no
    handler around the property request: when that request raises, as the
    SDK does for a path with no object, the error reaches the caller. *)
Theorem get_file_hash_absent_or_raises (pi : PathInfo.t) (w w1 : World Store) (c : Client) :
  blob_service self w = (Ok c, w1) ->
  (forall blob,
      sdk_get_blob_properties c (remote w1) (PathInfo.bucket pi) (PathInfo.path pi) = inr blob ->
      truthy (content_md5 blob) = false ->
      fst (get_file_hash b64decode self pi w) = Ok None) /\
  (forall e,
      sdk_get_blob_properties c (remote w1) (PathInfo.bucket pi) (PathInfo.path pi) = inl e ->
      fst (get_file_hash b64decode self pi w) = Raise e).
Proof.
  intros H. unfold get_file_hash. rewrite (_get_md5sum_file_run _ _ _ _ _ H); simpl.
  unfold hash_lookup. split.
  - intros blob -> Hmd5. by rewrite (md5sum_of_falsy _ Hmd5).
  - by intros e ->.
Qed.

(** C7: in any state, [isdir] answers true exactly when [get_file_hash]
    returns an absent hash; the two send the same request, end in the same
    state, and raise together. *)
Theorem isdir_iff_hash_absent (pi : PathInfo.t) (w : World Store) :
  (fst (isdir b64decode self pi w) = Ok true <->
   fst (get_file_hash b64decode self pi w) = Ok None) /\
  (fst (isdir b64decode self pi w) = Ok false <->
   exists h, fst (get_file_hash b64decode self pi w) = Ok (Some h)) /\
  (forall e, fst (isdir b64decode self pi w) = Raise e <->
             fst (get_file_hash b64decode self pi w) = Raise e) /\
  snd (isdir b64decode self pi w) = snd (get_file_hash b64decode self pi w).
Proof.
  unfold isdir, get_file_hash, bind.
  destruct (_get_md5sum_file _ _ _ _ _) as [[[h|]|e|] w']; simpl;
    repeat split; try congruence; try (intros [h' ?]; congruence); eauto.
Qed.

(** C3, amended: [exists] changes the remote store only through the first
    access to the client handle, which creates the adapter's own container
    when the probe reports it missing.  Once the handle is in its slot,
    [exists] leaves the store as it is and sends the existence query and
    nothing else; in no case does it send a deletion. *)
Theorem exists_frame (pi : PathInfo.t) (flag : bool) (w : World Store) :
  remote (snd (exists_ self pi flag w)) =
    match blob_service_slot w with
    | Some _ => remote w
    | None => after_bootstrap self (remote w)
    end /\
  List.filter is_delete_call (calls (snd (exists_ self pi flag w)))
    = List.filter is_delete_call (calls w) /\
  (forall c, blob_service_slot w = Some c ->
     exists_ self pi flag w =
     (outcome_of (sdk_exists c (remote w) (PathInfo.bucket pi) (PathInfo.path pi)),
      log_calls [exists_call (PathInfo.bucket pi) (PathInfo.path pi)] w)).
Proof.
  assert (Hgen : forall r w1, blob_service self w = (r, w1) ->
            remote (snd (exists_ self pi flag w)) = remote w1 /\
            List.filter is_delete_call (calls (snd (exists_ self pi flag w)))
              = List.filter is_delete_call (calls w1)).
  { intros r w1 H. unfold exists_, bind, sdk_query. rewrite H.
    destruct r as [c| |]; simpl; [|done|done].
    destruct (sdk_exists _ _ _ _); simpl;
      by rewrite List.filter_app, app_nil_r. }
  destruct (blob_service self w) as [r w1] eqn:E.
  destruct (Hgen r w1 eq_refl) as [H1 H2].
  pose proof (blob_service_remote self w) as Hr.
  pose proof (blob_service_no_delete self w) as Hd.
  rewrite E in Hr, Hd; simpl in Hr, Hd.
  repeat split.
  - by rewrite H1.
  - by rewrite H2.
  - intros c Hc. unfold exists_.
    rewrite (bind_blob_service _ _ _ _ (blob_service_cached self w c Hc)).
    unfold sdk_query; simpl. by destruct (sdk_exists _ _ _ _).
Qed.

(** C6: on a path reference of another scheme [remove] raises
    [NotImplementedError] and leaves the state as it was: no request is
    sent, nothing is deleted.  On a path reference of the adapter's scheme,
    once the client handle is obtained, [remove] sends one deletion, the
    one of (container, path), and the store is what that deletion makes of
    it; obtaining the handle sends no deletion. *)
Theorem remove_spec (pi : PathInfo.t) (w : World Store) :
  (PathInfo.scheme pi <> AzureTree_scheme ->
   remove self pi w = (Raise NotImplementedError, w)) /\
  (PathInfo.scheme pi = AzureTree_scheme ->
   forall c w1, blob_service self w = (Ok c, w1) ->
     List.filter is_delete_call (calls w1) = List.filter is_delete_call (calls w) /\
     remove self pi w =
       match sdk_delete_blob c (remote w1) (PathInfo.bucket pi) (PathInfo.path pi) with
       | inr s =>
           (Ok tt, set_remote s
                     (log_calls [delete_blob_call (PathInfo.bucket pi) (PathInfo.path pi)] w1))
       | inl e =>
           (Raise e, log_calls [delete_blob_call (PathInfo.bucket pi) (PathInfo.path pi)] w1)
       end) /\
  (PathInfo.scheme pi = AzureTree_scheme ->
   forall e w1, blob_service self w = (Raise e, w1) ->
     remove self pi w = (Raise e, w1) /\
     List.filter is_delete_call (calls w1) = List.filter is_delete_call (calls w)).
Proof.
  unfold remove. split; [|split].
  - intros Hs. apply String.eqb_neq in Hs. by rewrite Hs.
  - intros Hs c w1 Hb. apply String.eqb_eq in Hs. rewrite Hs; simpl. split.
    + pose proof (blob_service_no_delete self w) as Hd. by rewrite Hb in Hd.
    + rewrite (bind_blob_service _ _ _ _ Hb). unfold sdk_update; simpl.
      by destruct (sdk_delete_blob _ _ _ _).
  - intros Hs e w1 Hb. apply String.eqb_eq in Hs. rewrite Hs; simpl. split.
    + unfold bind. by rewrite Hb.
    + pose proof (blob_service_no_delete self w) as Hd. by rewrite Hb in Hd.
Qed.

End OperationFacts.

(** ** Listing *)

Section ListingFacts.

Context {Store : Type} {sdk : BlockBlobService Store}.
Variable b64decode : string -> exn + list Byte.byte.
Variable self : AzureTree.

(** Loops whose bodies agree run alike. *)
Lemma for_each_ext {A Acc} (body1 body2 : A -> Acc -> M Store Acc) (l : list A) :
  (forall x acc w, body1 x acc w = body2 x acc w) ->
  forall acc w, for_each body1 l acc w = for_each body2 l acc w.
Proof.
  intros Hb. induction l as [|x l IH]; intros acc w; simpl; [done|].
  unfold bind. rewrite Hb. destruct (body2 x acc w) as [[acc'| |] w']; auto.
Qed.

Lemma _list_paths_loop_ext {Acc} (body1 body2 : string -> Acc -> M Store Acc)
    fuel c bucket prefix :
  (forall x acc w, body1 x acc w = body2 x acc w) ->
  forall m acc w,
    _list_paths_loop fuel c bucket prefix m body1 acc w
    = _list_paths_loop fuel c bucket prefix m body2 acc w.
Proof.
  intros Hb. induction fuel as [|fuel IH]; intros m acc w; simpl; [done|].
  unfold bind. destruct (sdk_query _ _ w) as [[blobs| |] w0]; try done.
  rewrite (for_each_ext (fun blob => body1 (name blob)) (fun blob => body2 (name blob)));
    [|intros; apply Hb].
  destruct (for_each _ _ _ w0) as [[acc'| |] w']; try done.
  destruct (negb _); [done|apply IH].
Qed.

(** An invariant of the accumulator that every step of the body keeps is
    kept by the loop. *)
Lemma for_each_inv {A Acc} (I : Acc -> Prop) (body : A -> Acc -> M Store Acc) (l : list A) :
  (forall x acc w acc' w', I acc -> body x acc w = (Ok acc', w') -> I acc') ->
  forall acc w acc' w', I acc -> for_each body l acc w = (Ok acc', w') -> I acc'.
Proof.
  intros Hb. induction l as [|x l IH]; intros acc w acc' w' HI; simpl.
  - by intros [= <- <-].
  - unfold bind. destruct (body x acc w) as [[acc1| |] w1] eqn:E; try done.
    intros H. eapply IH; [|exact H]. by eapply Hb.
Qed.

Lemma _list_paths_loop_inv {Acc} (I : Acc -> Prop) (body : string -> Acc -> M Store Acc)
    fuel c bucket prefix :
  (forall x acc w acc' w', I acc -> body x acc w = (Ok acc', w') -> I acc') ->
  forall m acc w acc' w',
    I acc -> _list_paths_loop fuel c bucket prefix m body acc w = (Ok acc', w') -> I acc'.
Proof.
  intros Hb. induction fuel as [|fuel IH]; intros m acc w acc' w' HI; simpl; [done|].
  unfold bind. destruct (sdk_query _ _ w) as [[blobs| |] w0]; try done.
  destruct (for_each _ _ _ w0) as [[acc1| |] w1] eqn:E; try done.
  assert (I acc1) as HI1.
  { eapply (for_each_inv I (fun blob => body (name blob))); [|exact HI|exact E].
    intros; by eapply Hb. }
  destruct (negb _).
  - by intros [= <- <-].
  - by apply IH.
Qed.

(** Collecting the names of one page. *)
Lemma for_each_collect (l : list Blob) (acc : list string) (w : World Store) :
  for_each (fun blob acc => ret (acc ++ [name blob])%list) l acc w
  = (Ok (acc ++ List.map name l)%list, w).
Proof.
  revert acc. induction l as [|b l IH]; intros acc; simpl.
  - by rewrite app_nil_r.
  - unfold bind, ret at 1. rewrite IH. by rewrite <- app_assoc.
Qed.

(** The loop over the pages of a listing, collecting: it ends, it yields
    the names page after page, and it sends the page requests in order. *)
Lemma _list_paths_loop_collect c bucket prefix m pages :
  forall s, pages_from c s bucket prefix m pages ->
  forall fuel acc (w : World Store),
    remote w = s ->
    length pages <= fuel ->
    _list_paths_loop fuel c bucket prefix m
      (fun x acc => ret (acc ++ [x])%list) acc w
    = (Ok (acc ++ listed_names pages)%list,
       log_calls (page_requests bucket prefix m pages) w).
Proof.
  intros s Hp. induction Hp as [m pg Hpg Hlast|m pg rest Hpg Hmore Hrest IH];
    intros fuel acc w Hs Hfuel; (destruct fuel as [|fuel]; [simpl in Hfuel; lia|]);
    simpl; unfold bind at 1, sdk_query at 1; simpl; rewrite Hs, Hpg;
    unfold bind at 1;
    rewrite (for_each_collect (items pg) acc);
    unfold listed_names; simpl.
  - rewrite Hlast; simpl. unfold ret. by rewrite app_nil_r.
  - rewrite Hmore; simpl.
    rewrite (IH fuel); [|done|simpl in Hfuel; lia].
    rewrite log_calls_app. unfold listed_names. by rewrite <- app_assoc.
Qed.

Lemma page_requests_length bucket prefix m pages :
  length (page_requests bucket prefix m pages) = length pages.
Proof. revert m. induction pages as [|pg rest IH]; intros m; simpl; [done|]. by rewrite IH. Qed.

(** C4: when the listing of a container takes the pages [pages] ([n] of
    them), [_list_paths], run to its end with the client handle obtained,
    sends exactly the [n] page requests, in order, the first without a
    marker and each later one with the marker of the page before, stops at
    the page without a marker, and yields the names of the pages, each
    entry once and in order. *)
Theorem _list_paths_pages (bucket prefix : string) (w w1 : World Store) (c : Client)
    (pages : list Listing) (fuel : nat) :
  blob_service self w = (Ok c, w1) ->
  pages_from c (remote w1) bucket prefix None pages ->
  length pages <= fuel ->
  to_list (_list_paths self fuel bucket prefix) w
  = (Ok (listed_names pages), log_calls (page_requests bucket prefix None pages) w1) /\
  length (page_requests bucket prefix None pages) = length pages.
Proof.
  intros Hb Hp Hfuel. split; [|apply page_requests_length].
  unfold to_list, _list_paths. rewrite (bind_blob_service _ _ _ _ _ Hb).
  by rewrite (_list_paths_loop_collect _ _ _ _ _ _ Hp).
Qed.

(** The loop body [walk_files] hands to [_list_paths]. *)
Local Abbreviation walk_body q body :=
  (fun fname acc =>
     if endswith fname "/" then ret acc
     else
       bind (_get_md5sum_file b64decode self (PathInfo.bucket q) fname)
         (fun md5 => match md5 with
                     | None => ret acc
                     | Some _ => body (PathInfo.replace q fname) acc
                     end)).

Lemma walk_files_unfold {Acc} fuel pi (kwargs : gmap string bool)
    (body : PathInfo.t -> Acc -> M Store Acc) acc :
  delete "prefix" kwargs = ∅ ->
  walk_files b64decode self fuel pi kwargs body acc
  = _list_paths self fuel (PathInfo.bucket (listing_root pi kwargs))
      (PathInfo.path (listing_root pi kwargs))
      (walk_body (listing_root pi kwargs) body) acc.
Proof.
  intros Hk. unfold walk_files, listing_root. rewrite Hk.
  rewrite bool_decide_eq_true_2 by done. simpl.
  by destruct (default false (kwargs !! "prefix")).
Qed.

(** Keyword arguments other than [prefix] make the call fail before any
    request is sent. *)
Lemma walk_files_unknown_keyword {Acc} fuel pi (kwargs : gmap string bool)
    (body : PathInfo.t -> Acc -> M Store Acc) acc w :
  delete "prefix" kwargs <> ∅ ->
  walk_files b64decode self fuel pi kwargs body acc w = (Raise TypeError, w).
Proof.
  intros Hk. unfold walk_files. by rewrite bool_decide_eq_false_2.
Qed.

(** One listed name, collecting: it is kept when it is a file. *)
Lemma walk_body_collect q c s fname (acc : list PathInfo.t) (w : World Store) :
  blob_service_slot w = Some c ->
  remote w = s ->
  (endswith fname "/" = false ->
   exists h, hash_lookup b64decode c s (PathInfo.bucket q) fname = inr h) ->
  exists w',
    walk_body q (fun x acc => ret (acc ++ [x])%list) fname acc w
    = (Ok (acc ++ List.map (PathInfo.replace q)
                    (List.filter (is_file b64decode c s (PathInfo.bucket q)) [fname]))%list, w')
    /\ blob_service_slot w' = Some c /\ remote w' = s.
Proof.
  intros Hslot Hs Hh. simpl. unfold is_file.
  destruct (endswith fname "/") eqn:E; simpl.
  - exists w. by rewrite app_nil_r.
  - destruct (Hh eq_refl) as [h Hl].
    unfold bind.
    rewrite (_get_md5sum_file_run b64decode self w w c _ _ (blob_service_cached self w c Hslot)).
    rewrite Hs, Hl; simpl.
    destruct h as [h|]; simpl; rewrite ?app_nil_r;
      eexists; (split; [reflexivity|]); simpl; auto.
Qed.

(** One page, collecting. *)
Lemma walk_page_collect q c s (l : list Blob) :
  forall (acc : list PathInfo.t) (w : World Store),
    blob_service_slot w = Some c ->
    remote w = s ->
    Forall (fun fname => endswith fname "/" = false ->
              exists h, hash_lookup b64decode c s (PathInfo.bucket q) fname = inr h)
      (List.map name l) ->
    exists w',
      for_each (fun blob => walk_body q (fun x acc => ret (acc ++ [x])%list) (name blob)) l acc w
      = (Ok (acc ++ List.map (PathInfo.replace q)
                      (List.filter (is_file b64decode c s (PathInfo.bucket q))
                         (List.map name l)))%list, w')
      /\ blob_service_slot w' = Some c /\ remote w' = s.
Proof.
  induction l as [|b l IH]; intros acc w Hslot Hs Hall.
  - exists w. simpl. by rewrite app_nil_r.
  - apply Forall_cons in Hall as [Hb Hall].
    destruct (walk_body_collect q c s (name b) acc w Hslot Hs Hb) as (w1 & E1 & Hslot1 & Hs1).
    change (for_each ?f (b :: l) acc w) with (bind (f b acc) (for_each f l) w).
    unfold bind at 1. rewrite E1.
    match goal with
    | |- context [for_each _ l ?a w1] =>
        destruct (IH a w1 Hslot1 Hs1 Hall) as (w2 & E2 & Hslot2 & Hs2)
    end.
    exists w2. split; [|done]. rewrite E2. f_equal. f_equal.
    rewrite <- app_assoc, <- List.map_app. f_equal. f_equal.
    simpl. by destruct (is_file _ _ _ _ _).
Qed.

(** All pages, collecting. *)
Lemma walk_loop_collect q c m pages :
  forall s, pages_from c s (PathInfo.bucket q) (PathInfo.path q) m pages ->
  forall fuel (acc : list PathInfo.t) (w : World Store),
    blob_service_slot w = Some c ->
    remote w = s ->
    length pages <= fuel ->
    Forall (fun fname => endswith fname "/" = false ->
              exists h, hash_lookup b64decode c s (PathInfo.bucket q) fname = inr h)
      (listed_names pages) ->
    exists w',
      _list_paths_loop fuel c (PathInfo.bucket q) (PathInfo.path q) m
        (walk_body q (fun x acc => ret (acc ++ [x])%list)) acc w
      = (Ok (acc ++ List.map (PathInfo.replace q)
                      (List.filter (is_file b64decode c s (PathInfo.bucket q))
                         (listed_names pages)))%list, w')
      /\ blob_service_slot w' = Some c /\ remote w' = s.
Proof.
  intros s Hp. induction Hp as [m pg Hpg Hlast|m pg rest Hpg Hmore Hrest IH];
    intros fuel acc w Hslot Hs Hfuel Hall;
    (destruct fuel as [|fuel]; [simpl in Hfuel; lia|]);
    unfold listed_names in Hall; simpl in Hall; apply Forall_app in Hall as [Hall1 Hall2];
    destruct (walk_page_collect q c s (items pg) acc
                (log_calls [list_blobs_call (PathInfo.bucket q) (Some (PathInfo.path q)) None None m] w)
                Hslot Hs Hall1) as (w1 & E1 & Hslot1 & Hs1);
    simpl; unfold bind at 1, sdk_query at 1; simpl; rewrite Hs, Hpg;
    unfold bind at 1; rewrite E1.
  - rewrite Hlast; simpl. exists w1. split; [|done].
    unfold ret, listed_names; simpl. by rewrite !app_nil_r.
  - rewrite Hmore; simpl.
    destruct (IH fuel (acc ++ List.map (PathInfo.replace q)
                         (List.filter (is_file b64decode c s (PathInfo.bucket q))
                            (List.map name (items pg))))%list
                w1 Hslot1 Hs1) as (w2 & E2 & Hslot2 & Hs2);
      [simpl in Hfuel; lia|exact Hall2|].
    exists w2. split; [|done]. rewrite E2. f_equal. f_equal.
    unfold listed_names; simpl.
    by rewrite List.filter_app, List.map_app, <- app_assoc.
Qed.

(** C5: run to its end over a listing whose hash lookups return,
    [walk_files] yields exactly the listed entries whose name does not end
    in the path separator and whose content hash is present, each as the
    listing root with its path replaced by the entry's name; directory
    markers and entries without a hash are left out. *)
Theorem walk_files_yields (pi : PathInfo.t) (kwargs : gmap string bool)
    (w w1 : World Store) (c : Client) (pages : list Listing) (fuel : nat) :
  delete "prefix" kwargs = ∅ ->
  blob_service self w = (Ok c, w1) ->
  pages_from c (remote w1) (PathInfo.bucket (listing_root pi kwargs))
    (PathInfo.path (listing_root pi kwargs)) None pages ->
  length pages <= fuel ->
  Forall (fun fname => endswith fname "/" = false ->
            exists h, hash_lookup b64decode c (remote w1)
                        (PathInfo.bucket (listing_root pi kwargs)) fname = inr h)
    (listed_names pages) ->
  fst (to_list (walk_files b64decode self fuel pi kwargs) w)
  = Ok (List.map (PathInfo.replace (listing_root pi kwargs))
          (List.filter
             (is_file b64decode c (remote w1) (PathInfo.bucket (listing_root pi kwargs)))
             (listed_names pages))) /\
  remote (snd (to_list (walk_files b64decode self fuel pi kwargs) w)) = remote w1.
Proof.
  intros Hk Hb Hp Hfuel Hall.
  unfold to_list. rewrite (walk_files_unfold _ _ _ _ _ Hk).
  unfold _list_paths. rewrite (bind_blob_service _ _ _ _ _ Hb).
  destruct (walk_loop_collect _ c None pages _ Hp fuel [] w1
              (blob_service_fills_slot self w w1 c Hb) eq_refl Hfuel Hall)
    as (w2 & E & _ & Hs).
  rewrite E. simpl. by split.
Qed.

(** C10: [walk_files] hands its consumer only path references with the
    scheme and the container of the query: guarding the consumer by that
    test changes nothing, whatever the guard would do otherwise; so every
    path reference of a completed walk has the query's scheme and
    container. *)
Theorem walk_files_same_container (pi : PathInfo.t) (kwargs : gmap string bool) (fuel : nat) :
  (forall Acc (body other : PathInfo.t -> Acc -> M Store Acc) acc w,
     walk_files b64decode self fuel pi kwargs body acc w
     = walk_files b64decode self fuel pi kwargs
         (fun r acc => if same_container r pi then body r acc else other r acc) acc w) /\
  (forall w out w',
     to_list (walk_files b64decode self fuel pi kwargs) w = (Ok out, w') ->
     Forall (fun r => PathInfo.scheme r = PathInfo.scheme pi /\
                      PathInfo.bucket r = PathInfo.bucket pi) out).
Proof.
  assert (Hroot : forall fname,
            PathInfo.scheme (PathInfo.replace (listing_root pi kwargs) fname) = PathInfo.scheme pi /\
            PathInfo.bucket (PathInfo.replace (listing_root pi kwargs) fname) = PathInfo.bucket pi).
  { intros fname. unfold listing_root. by destruct (default false (kwargs !! "prefix")). }
  split.
  - intros Acc body other acc w.
    destruct (decide (delete "prefix" kwargs = ∅)) as [Hk|Hk];
      [|by rewrite !walk_files_unknown_keyword].
    rewrite !(walk_files_unfold _ _ _ _ _ Hk).
    unfold _list_paths, bind.
    destruct (blob_service self w) as [[c| |] w1]; try done.
    apply _list_paths_loop_ext. intros fname acc0 w0.
    destruct (endswith fname "/"); [done|].
    unfold bind. destruct (_get_md5sum_file _ _ _ _ w0) as [[[h|]| |] w2]; try done.
    unfold same_container. destruct (Hroot fname) as [-> ->].
    by rewrite !String.eqb_refl.
  - intros w out w'.
    destruct (decide (delete "prefix" kwargs = ∅)) as [Hk|Hk];
      [|unfold to_list; by rewrite walk_files_unknown_keyword].
    unfold to_list. rewrite (walk_files_unfold _ _ _ _ _ Hk).
    unfold _list_paths, bind.
    destruct (blob_service self w) as [[c| |] w1]; try done.
    apply (_list_paths_loop_inv
             (Forall (fun r => PathInfo.scheme r = PathInfo.scheme pi /\
                               PathInfo.bucket r = PathInfo.bucket pi))); [|constructor].
    intros fname acc0 w0 acc' w0' HI.
    destruct (endswith fname "/"); [by intros [= <- <-]|].
    unfold bind. destruct (_get_md5sum_file _ _ _ _ w0) as [[[h|]| |] w2]; try done.
    + intros [= <- <-]. apply Forall_app. split; [done|].
      constructor; [apply Hroot|constructor].
    + by intros [= <- <-].
Qed.

End ListingFacts.

(** ** The properties on the in-memory store *)

Lemma world_ready_run :
  blob_service (sdk := sdk_example) tree_example world_fresh = (Ok client_example, world_ready).
Proof. vm_compute. reflexivity. Defined.

Lemma pages_example_listed :
  pages_from (sdk := sdk_example) client_example (remote world_ready) "c" "a/" None pages_example.
Proof.
  unfold pages_example.
  eapply pages_more; [vm_compute; reflexivity|reflexivity|].
  eapply pages_more; [vm_compute; reflexivity|reflexivity|].
  eapply pages_last; [vm_compute; reflexivity|reflexivity].
Defined.

Example md5_of_empty_decoded :
  md5sum_of Base64.b64decode (Some md5_empty_b64) = inr (Some "d41d8cd98f00b204e9800998ecf8427e").
Proof. vm_compute. reflexivity. Qed.

(** C2, as stated, fails: where no object exists at the path, the property
    request raises and [get_file_hash] raises with it, on a first call and
    on a later one alike. *)
Lemma get_file_hash_missing_object_raises :
  MemStore.exists_blob client_example store_example "c" "missing" = inr false /\
  fst (get_file_hash (sdk := sdk_example) Base64.b64decode tree_example
         (PATH_CLS "azure://c/missing") world_fresh)
  = Raise AzureMissingResourceHttpError /\
  fst (get_file_hash (sdk := sdk_example) Base64.b64decode tree_example
         (PATH_CLS "azure://c/missing") world_ready)
  = Raise AzureMissingResourceHttpError.
Proof. repeat split; vm_compute; reflexivity. Qed.

Lemma get_file_hash_absent_or_raises_witness :
  fst (get_file_hash (sdk := sdk_example) Base64.b64decode tree_example
         (PATH_CLS "azure://c/a/y") world_fresh) = Ok None /\
  fst (get_file_hash (sdk := sdk_example) Base64.b64decode tree_example
         (PATH_CLS "azure://c/missing") world_fresh) = Raise AzureMissingResourceHttpError.
Proof.
  split.
  - apply (proj1 (get_file_hash_absent_or_raises (sdk := sdk_example) Base64.b64decode
                    tree_example (PATH_CLS "azure://c/a/y") world_fresh world_ready
                    client_example world_ready_run)
             {| name := "a/y"; content_md5 := None |}).
    + vm_compute. reflexivity.
    + reflexivity.
  - apply (proj2 (get_file_hash_absent_or_raises (sdk := sdk_example) Base64.b64decode
                    tree_example (PATH_CLS "azure://c/missing") world_fresh world_ready
                    client_example world_ready_run)).
    vm_compute. reflexivity.
Defined.

(** C3, as stated, fails on the first call: with the adapter's container
    missing, [exists] creates it. *)
Lemma exists_creates_container_on_first_call :
  remote (MemStore.fresh ∅) !! "c" = None /\
  fst (exists_ (sdk := sdk_example) tree_example (PATH_CLS "azure://c/a/x") true
         (MemStore.fresh ∅)) = Ok false /\
  remote (snd (exists_ (sdk := sdk_example) tree_example (PATH_CLS "azure://c/a/x") true
                 (MemStore.fresh ∅))) !! "c" = Some [] /\
  calls (snd (exists_ (sdk := sdk_example) tree_example (PATH_CLS "azure://c/a/x") true
                (MemStore.fresh ∅)))
  = [BlockBlobService_new (_conn_kwargs tree_example);
     list_blobs_call "c" None (Some 1) (Some "/") None;
     create_container_call "c";
     exists_call "c" "a/x"].
Proof. repeat split; vm_compute; reflexivity. Qed.

Lemma exists_frame_witness :
  exists_ (sdk := sdk_example) tree_example (PATH_CLS "azure://c/a/x") true world_ready
  = (Ok true, log_calls [exists_call "c" "a/x"] world_ready).
Proof.
  apply (proj2 (proj2 (exists_frame (sdk := sdk_example) tree_example
                         (PATH_CLS "azure://c/a/x") true world_ready))
           client_example).
  vm_compute. reflexivity.
Defined.

Lemma remove_spec_witness :
  remove (sdk := sdk_example) tree_example (PATH_CLS "s3://c/a/y") world_fresh
  = (Raise NotImplementedError, world_fresh) /\
  remove (sdk := sdk_example) tree_example (PATH_CLS "azure://c/a/y") world_fresh
  = (Ok tt,
     set_remote
       {[ "c" := [ {| name := "a/"; content_md5 := None |};
                   {| name := "a/x"; content_md5 := Some md5_empty_b64 |} ] ]}
       (log_calls [delete_blob_call "c" "a/y"] world_ready)).
Proof.
  split.
  - apply (proj1 (remove_spec (sdk := sdk_example) tree_example
                    (PATH_CLS "s3://c/a/y") world_fresh)).
    vm_compute. discriminate.
  - apply (proj2 (proj1 (proj2 (remove_spec (sdk := sdk_example) tree_example
                                  (PATH_CLS "azure://c/a/y") world_fresh))
                    eq_refl client_example world_ready world_ready_run)).
Defined.

Lemma _list_paths_pages_witness :
  to_list (_list_paths (sdk := sdk_example) tree_example 3 "c" "a/") world_fresh
  = (Ok ["a/"; "a/x"; "a/y"],
     log_calls [list_blobs_call "c" (Some "a/") None None None;
                list_blobs_call "c" (Some "a/") None None (Some "a/x");
                list_blobs_call "c" (Some "a/") None None (Some "a/y")] world_ready) /\
  length (page_requests "c" "a/" None pages_example) = 3.
Proof.
  apply (_list_paths_pages (sdk := sdk_example) tree_example "c" "a/" world_fresh world_ready
           client_example pages_example 3 world_ready_run pages_example_listed).
  simpl. lia.
Defined.

Lemma walk_files_yields_witness :
  fst (to_list (walk_files (sdk := sdk_example) Base64.b64decode tree_example 3
                  (PATH_CLS "azure://c/a") ∅) world_fresh)
  = Ok [PathInfo.mk "azure" "c" "a/x"] /\
  remote (snd (to_list (walk_files (sdk := sdk_example) Base64.b64decode tree_example 3
                          (PATH_CLS "azure://c/a") ∅) world_fresh))
  = remote world_ready.
Proof.
  replace [PathInfo.mk "azure" "c" "a/x"]
    with (List.map (PathInfo.replace (listing_root (PATH_CLS "azure://c/a") ∅))
            (List.filter
               (is_file (sdk := sdk_example) Base64.b64decode client_example (remote world_ready)
                  (PathInfo.bucket (listing_root (PATH_CLS "azure://c/a") ∅)))
               (listed_names pages_example)))
    by (vm_compute; reflexivity).
  apply (walk_files_yields (sdk := sdk_example) Base64.b64decode tree_example
           (PATH_CLS "azure://c/a") ∅ world_fresh world_ready client_example pages_example 3).
  - vm_compute. reflexivity.
  - exact world_ready_run.
  - exact pages_example_listed.
  - simpl. lia.
  - repeat constructor; intros _; eexists; vm_compute; reflexivity.
Defined.

Lemma walk_files_same_container_witness :
  Forall (fun r => PathInfo.scheme r = "azure" /\ PathInfo.bucket r = "c")
    [PathInfo.mk "azure" "c" "a/x"].
Proof.
  apply (proj2 (walk_files_same_container (sdk := sdk_example) Base64.b64decode tree_example
                  (PATH_CLS "azure://c/a") ∅ 3)
           world_fresh [PathInfo.mk "azure" "c" "a/x"]
           (snd (to_list (walk_files (sdk := sdk_example) Base64.b64decode tree_example 3
                            (PATH_CLS "azure://c/a") ∅) world_fresh))).
  vm_compute. reflexivity.
Defined.

(** * Further properties of the code *)

(** ** Construction *)

(** X1: the two attributes that [__init__] itself assigns, the path
    reference and the connection keyword arguments, depend on the
    configuration mapping through three options only, [url],
    [connection_string] and [sas_token]: two mappings that agree on these
    give the same path reference and the same keyword arguments, whatever
    else they hold.  (What the base-class initializer does with the mapping
    is outside this statement.) *)
Theorem init_attributes_read_three_options (az : string -> string -> option string)
    (config config' : gmap string string) :
  config !! "url" = config' !! "url" ->
  config !! "connection_string" = config' !! "connection_string" ->
  config !! "sas_token" = config' !! "sas_token" ->
  path_info (__init__ az config) = path_info (__init__ az config') /\
  _conn_kwargs (__init__ az config) = _conn_kwargs (__init__ az config').
Proof.
  intros Hu Hc Hs. unfold __init__, conn_kwargs_of; simpl.
  by rewrite Hu, Hc, Hs.
Qed.

Lemma init_attributes_read_three_options_witness :
  path_info (__init__ profile_example config_plain)
  = path_info (__init__ profile_example config_noisy) /\
  _conn_kwargs (__init__ profile_example config_plain)
  = _conn_kwargs (__init__ profile_example config_noisy).
Proof.
  apply (init_attributes_read_three_options profile_example config_plain config_noisy);
    vm_compute; reflexivity.
Defined.

(** X2: when the URL option names no container and the profile has no
    default container either, the adapter does not fail: its path reference
    is the one read from the URL [azure://None], the f-string's rendering of
    the missing name. *)
Theorem init_without_any_container (az : string -> string -> option string)
    (config : gmap string string) :
  str_truthy (PathInfo.bucket (PATH_CLS (default "azure://" (config !! "url")))) = false ->
  az "storage" "container_name" = None ->
  path_info (__init__ az config) = PATH_CLS "azure://None".
Proof.
  intros Hurl Haz. unfold __init__; simpl. by rewrite Hurl, Haz.
Qed.

Lemma init_without_any_container_witness :
  path_info (__init__ (fun _ _ => None) {["url" := "azure://"]}) = PATH_CLS "azure://None".
Proof.
  apply (init_without_any_container (fun _ _ => None) {["url" := "azure://"]});
    vm_compute; reflexivity.
Defined.

(** X3: the connection keyword arguments always have the same four keys,
    [connection_string], [sas_token], [account_name] and [account_key]; an
    option found neither in the configuration nor in the profile is passed
    as [None], not left out. *)
Theorem conn_kwargs_keys (az : string -> string -> option string)
    (config : gmap string string) :
  dom (_conn_kwargs (__init__ az config))
  = ({["connection_string"; "sas_token"; "account_name"; "account_key"]} : gset string) /\
  (forall opt, opt = "connection_string" \/ opt = "sas_token" ->
     config !! opt = None -> az "storage" opt = None ->
     _conn_kwargs (__init__ az config) !! opt = Some None).
Proof.
  unfold __init__, conn_kwargs_of; simpl. split.
  - rewrite !dom_insert_L, dom_empty_L. set_solver.
  - intros opt [-> | ->] Hc Hp; simplify_map_eq; by rewrite Hc, Hp.
Qed.

(** ** The stored content hash *)

Lemma append_cons c s t : (String c s ++ t)%string = String c (s ++ t)%string.
Proof. reflexivity. Qed.

Lemma append_nil t : (EmptyString ++ t)%string = t.
Proof. reflexivity. Qed.

Lemma rstrip_snoc ch s : rstrip ch (s ++ String ch EmptyString) = rstrip ch s.
Proof.
  induction s as [|c s IH].
  - rewrite append_nil. simpl. by rewrite Ascii.eqb_refl.
  - rewrite append_cons. simpl. by rewrite IH.
Qed.

(** Wrapping a string in a pair of the stripped character does not change
    what [strip] makes of it. *)
Lemma strip_wrapped ch s :
  strip ch (String ch (s ++ String ch EmptyString)) = strip ch s.
Proof.
  unfold strip. simpl. rewrite Ascii.eqb_refl.
  induction s as [|c s IH].
  - rewrite append_nil. simpl. by rewrite Ascii.eqb_refl.
  - rewrite append_cons. simpl. destruct (Ascii.eqb c ch); [exact IH|].
    rewrite <- append_cons. apply rstrip_snoc.
Qed.

Lemma hex_byte_lower b :
  is_hex_lower (hex_digit (Byte.to_N b / 16)) = true /\
  is_hex_lower (hex_digit (Byte.to_N b mod 16)) = true.
Proof. destruct b; split; vm_compute; reflexivity. Qed.

Lemma hex_shape bs :
  String.length (hex bs) = 2 * length bs /\
  forallb is_hex_lower (list_ascii_of_string (hex bs)) = true.
Proof.
  induction bs as [|b bs [IHl IHd]]; [done|].
  destruct (hex_byte_lower b) as [H1 H2].
  split.
  - simpl. rewrite IHl. lia.
  - cbn [hex list_ascii_of_string forallb]. by rewrite H1, H2, IHd.
Qed.

Section HashFacts.

Context {Store : Type} {sdk : BlockBlobService Store}.
Variable b64decode : string -> exn + list Byte.byte.
Variable self : AzureTree.

(** What the hash lookup returns comes out of the conditional expression
    on some stored value. *)
Lemma _get_md5sum_file_result bucket path (w : World Store) r :
  fst (_get_md5sum_file b64decode self bucket path w) = Ok r ->
  exists file_md5, md5sum_of b64decode file_md5 = inr r.
Proof.
  unfold _get_md5sum_file, bind, sdk_query, lift.
  destruct (blob_service self w) as [[c| |] w1]; simpl; try done.
  destruct (sdk_get_blob_properties _ _ _ _) as [e|blob]; simpl; try done.
  destruct (md5sum_of b64decode (content_md5 blob)) as [e|r'] eqn:E; simpl; try done.
  intros [= <-]. eauto.
Qed.

(** X4: a content hash that [get_file_hash] returns is the hexadecimal
    rendering of the bytes that base64 decodes from the stored value,
    double quotes stripped: lower-case digits, two for each of these
    bytes. *)
Theorem get_file_hash_is_lower_hex (pi : PathInfo.t) (w w1 : World Store) (c : Client)
    (h : string) :
  blob_service self w = (Ok c, w1) ->
  fst (get_file_hash b64decode self pi w) = Ok (Some h) ->
  exists blob s bs,
    sdk_get_blob_properties c (remote w1) (PathInfo.bucket pi) (PathInfo.path pi) = inr blob /\
    content_md5 blob = Some s /\
    b64decode (strip dquote s) = inr bs /\
    h = hex bs /\
    String.length h = 2 * length bs /\
    forallb is_hex_lower (list_ascii_of_string h) = true.
Proof.
  intros Hb. unfold get_file_hash.
  rewrite (_get_md5sum_file_run b64decode self w w1 c _ _ Hb); simpl.
  unfold hash_lookup.
  destruct (sdk_get_blob_properties _ _ _ _) as [e|blob]; simpl; [done|].
  unfold md5sum_of.
  destruct (content_md5 blob) as [s|] eqn:Es; [|done].
  destruct (str_truthy s); [|done].
  destruct (b64decode (strip dquote s)) as [e|bs] eqn:Ed; simpl; [done|].
  intros [= <-]. exists blob, s, bs.
  repeat split; try done; apply hex_shape.
Qed.

(** X5: double quotes around the stored value do not matter: a non-empty
    value and the same value in a pair of double quotes give the same
    hash, or the same decoder error. *)
Theorem md5sum_of_quoted (s : string) :
  s <> EmptyString ->
  md5sum_of b64decode (Some (String dquote (s ++ String dquote EmptyString)))
  = md5sum_of b64decode (Some s).
Proof.
  intros Hs. unfold md5sum_of.
  rewrite strip_wrapped.
  destruct (str_truthy s) eqn:E; [done|].
  apply str_truthy_false in E. contradiction.
Qed.

End HashFacts.

Lemma get_file_hash_is_lower_hex_witness :
  exists blob s bs,
    sdk_get_blob_properties (BlockBlobService := sdk_example) client_example
      (remote world_ready) "c" "a/x" = inr blob /\
    content_md5 blob = Some s /\
    Base64.b64decode (strip dquote s) = inr bs /\
    "d41d8cd98f00b204e9800998ecf8427e" = hex bs /\
    String.length "d41d8cd98f00b204e9800998ecf8427e" = 2 * length bs /\
    forallb is_hex_lower (list_ascii_of_string "d41d8cd98f00b204e9800998ecf8427e") = true.
Proof.
  apply (get_file_hash_is_lower_hex (sdk := sdk_example) Base64.b64decode tree_example
           (PATH_CLS "azure://c/a/x") world_fresh world_ready client_example
           "d41d8cd98f00b204e9800998ecf8427e" world_ready_run).
  vm_compute. reflexivity.
Defined.

Lemma md5sum_of_quoted_witness :
  md5sum_of Base64.b64decode
    (Some (String dquote (md5_empty_b64 ++ String dquote EmptyString)))
  = md5sum_of Base64.b64decode (Some md5_empty_b64).
Proof. apply (md5sum_of_quoted Base64.b64decode md5_empty_b64). discriminate. Defined.

(** ** The client handle over the adapter's lifetime *)

Section LifetimeFacts.

Context {Store : Type} {sdk : BlockBlobService Store}.
Variable b64decode : string -> exn + list Byte.byte.
Variable self : AzureTree.

(** X6: a first access that raises leaves the slot empty and the store as
    it was; the error is the constructor's, which stands outside the [try]
    and after which no request is sent, or the probe's, when it is not the
    missing-resource error, or the one of the container's creation.
    Nothing of the failure is remembered: the next access builds a client
    object again. *)
Theorem blob_service_failure_not_cached (w w1 : World Store) (e : exn) :
  blob_service self w = (Raise e, w1) ->
  blob_service_slot w = None /\
  blob_service_slot w1 = None /\
  remote w1 = remote w /\
  ((sdk_new (_conn_kwargs self) = inl e /\
    calls w1 = (calls w ++ [BlockBlobService_new (_conn_kwargs self)])%list) \/
   (exists c,
      sdk_new (_conn_kwargs self) = inr c /\
      ((sdk_list_blobs c (remote w) (PathInfo.bucket (path_info self))
          None (Some 1) (Some "/") None = inl e /\
        e <> AzureMissingResourceHttpError) \/
       (sdk_list_blobs c (remote w) (PathInfo.bucket (path_info self))
          None (Some 1) (Some "/") None = inl AzureMissingResourceHttpError /\
        sdk_create_container c (remote w) (PathInfo.bucket (path_info self)) = inl e)))) /\
  List.filter is_construction (calls (snd (blob_service self w1)))
  = (List.filter is_construction (calls w)
     ++ [BlockBlobService_new (_conn_kwargs self); BlockBlobService_new (_conn_kwargs self)])%list.
Proof.
  intros H.
  assert (Hslot : blob_service_slot w = None).
  { destruct (blob_service_slot w) as [c|] eqn:E; [|done].
    rewrite (blob_service_cached self w c E) in H. discriminate. }
  assert (Hslot1 : blob_service_slot w1 = None /\ remote w1 = remote w /\
            ((sdk_new (_conn_kwargs self) = inl e /\
              calls w1 = (calls w ++ [BlockBlobService_new (_conn_kwargs self)])%list) \/
             (exists c,
                sdk_new (_conn_kwargs self) = inr c /\
                ((sdk_list_blobs c (remote w) (PathInfo.bucket (path_info self))
                    None (Some 1) (Some "/") None = inl e /\
                  e <> AzureMissingResourceHttpError) \/
                 (sdk_list_blobs c (remote w) (PathInfo.bucket (path_info self))
                    None (Some 1) (Some "/") None = inl AzureMissingResourceHttpError /\
                  sdk_create_container c (remote w) (PathInfo.bucket (path_info self))
                  = inl e))))).
  { revert H.
    unfold blob_service, blob_service_body, bind, try_except, sdk_query, sdk_update, ret.
    rewrite Hslot; simpl.
    destruct (sdk_new (_conn_kwargs self)) as [e0|c] eqn:En; simpl.
    { intros [= <- <-]; simpl. repeat split; try done. left. by split. }
    destruct (sdk_list_blobs c _ _ _ _ _ _) as [e0|pg] eqn:Ep; simpl; [|done].
    destruct e0; simpl;
      try (intros [= <- <-]; simpl; repeat split; try done;
           right; exists c; split; [done|]; left; split; done).
    destruct (sdk_create_container c _ _) as [e1|s'] eqn:Ec; simpl; [|done].
    intros [= <- <-]; simpl. repeat split; try done.
    right. exists c. split; [done|]. right. by split. }
  destruct Hslot1 as (Hs1 & Hr & He).
  repeat split; try done.
  rewrite blob_service_constructions, Hs1.
  pose proof (blob_service_constructions self w) as Hc.
  rewrite H, Hslot in Hc; simpl in Hc. rewrite Hc.
  by rewrite <- app_assoc.
Qed.

Lemma sdk_query_snd {A} call (f : Store -> exn + A) (w : World Store) :
  snd (sdk_query call f w) = log_calls [call] w.
Proof. unfold sdk_query; simpl. by destruct (f (remote w)). Qed.

Lemma bind_keeps {A B} (P : World Store -> Prop) (m : M Store A) (k : A -> M Store B) w :
  P (snd (m w)) ->
  (forall a w', P w' -> P (snd (k a w'))) ->
  P (snd (bind m k w)).
Proof.
  intros Hm Hk. unfold bind. destruct (m w) as [[a| |] w']; simpl in *; auto.
Qed.

Lemma for_each_keeps {A Acc} (P : World Store -> Prop) (body : A -> Acc -> M Store Acc) l :
  (forall x acc w, P w -> P (snd (body x acc w))) ->
  forall acc w, P w -> P (snd (for_each body l acc w)).
Proof.
  intros Hb. induction l as [|x l IH]; intros acc w HP; simpl; [done|].
  apply bind_keeps; [by apply Hb|]. intros; by apply IH.
Qed.

Lemma quiet_start c (w : World Store) : blob_service_slot w = Some c -> quiet c w w.
Proof. by intros H; repeat split. Qed.

Lemma quiet_log c (w0 w : World Store) call :
  is_construction call = false -> is_store_update call = false ->
  quiet c w0 w -> quiet c w0 (log_calls [call] w).
Proof.
  intros Hc Hu ((Hs & Hk) & Hr & Hq). unfold quiet, handle_kept; simpl.
  rewrite !List.filter_app; simpl. rewrite Hc, Hu, !app_nil_r. done.
Qed.

Lemma quiet_blob_service c (w0 w : World Store) :
  quiet c w0 w -> blob_service self w = (Ok c, w).
Proof. intros ((Hs & _) & _). by apply blob_service_cached. Qed.

Lemma quiet_md5 c (w0 w : World Store) bucket path :
  quiet c w0 w -> quiet c w0 (snd (_get_md5sum_file b64decode self bucket path w)).
Proof.
  intros Hq.
  rewrite (_get_md5sum_file_run b64decode self w w c _ _ (quiet_blob_service _ _ _ Hq)).
  by apply quiet_log.
Qed.

Lemma quiet_list_loop {Acc} c (w0 : World Store) (body : string -> Acc -> M Store Acc)
    fuel bucket prefix :
  (forall x acc w, quiet c w0 w -> quiet c w0 (snd (body x acc w))) ->
  forall m acc w,
    quiet c w0 w ->
    quiet c w0 (snd (_list_paths_loop fuel c bucket prefix m body acc w)).
Proof.
  intros Hb. induction fuel as [|fuel IH]; intros m acc w Hq; simpl; [done|].
  apply bind_keeps; [rewrite sdk_query_snd; by apply quiet_log|].
  intros blobs w1 Hq1.
  apply bind_keeps; [apply for_each_keeps; [intros; by apply Hb|done]|].
  intros acc' w2 Hq2. destruct (negb _); [done|by apply IH].
Qed.

Lemma quiet_read c (w0 w : World Store) o :
  is_read o = true -> quiet c w0 w -> quiet c w0 (run_op b64decode self o w).
Proof.
  intros Hr Hq. destruct o as [pi flag|pi|pi|fuel bucket prefix|fuel pi kwargs|pi];
    simpl in *; try discriminate.
  - unfold exists_. rewrite (bind_blob_service self _ _ _ _ (quiet_blob_service _ _ _ Hq)).
    rewrite sdk_query_snd. by apply quiet_log.
  - unfold isdir. apply bind_keeps; [by apply quiet_md5|done].
  - by apply quiet_md5.
  - unfold to_list, _list_paths.
    rewrite (bind_blob_service self _ _ _ _ (quiet_blob_service _ _ _ Hq)).
    by apply quiet_list_loop.
  - unfold to_list, walk_files.
    destruct (negb (bool_decide _)); [done|].
    unfold _list_paths.
    rewrite (bind_blob_service self _ _ _ _ (quiet_blob_service _ _ _ Hq)).
    apply quiet_list_loop; [|done].
    intros fname acc w1 Hq1. destruct (endswith fname "/"); [done|].
    apply bind_keeps; [by apply quiet_md5|].
    intros [h|] w2 Hq2; done.
Qed.

(** X7: once the client handle is in its slot, a sequence of calls of
    [exists], [isdir], [get_file_hash], [_list_paths] and [walk_files],
    however each of them ends, leaves the remote store as it was and sends
    no request that changes it; the handle stays in the slot. *)
Theorem reads_leave_store (c : Client) (w : World Store) (ops : list Op) :
  blob_service_slot w = Some c ->
  forallb is_read ops = true ->
  quiet c w (run_ops b64decode self ops w).
Proof.
  intros Hs Hops.
  assert (Hgen : forall w1, quiet c w w1 -> quiet c w (run_ops b64decode self ops w1)).
  { unfold run_ops. induction ops as [|o ops IH]; intros w1 Hq; simpl in *; [done|].
    apply andb_prop in Hops as [Ho Hops].
    apply IH; [done|]. by apply quiet_read. }
  by apply Hgen, quiet_start.
Qed.



(** X9: reads can be repeated: when the first call obtains the client
    handle, a second call of [get_file_hash], [isdir] or [exists] on the
    same path, made right after the first, ends as the first did. *)
Theorem reads_repeat (pi : PathInfo.t) (flag : bool) (w w1 : World Store) (c : Client) :
  blob_service self w = (Ok c, w1) ->
  fst (get_file_hash b64decode self pi (snd (get_file_hash b64decode self pi w)))
  = fst (get_file_hash b64decode self pi w) /\
  fst (isdir b64decode self pi (snd (isdir b64decode self pi w)))
  = fst (isdir b64decode self pi w) /\
  fst (exists_ self pi flag (snd (exists_ self pi flag w)))
  = fst (exists_ self pi flag w).
Proof.
  intros Hb.
  pose proof (blob_service_fills_slot self w w1 c Hb) as Hs1.
  assert (Hmd5 : forall bucket path,
            fst (_get_md5sum_file b64decode self bucket path
                   (snd (_get_md5sum_file b64decode self bucket path w)))
            = fst (_get_md5sum_file b64decode self bucket path w) /\
            snd (_get_md5sum_file b64decode self bucket path w)
            = log_calls [get_blob_properties_call bucket path] w1).
  { intros bucket path.
    rewrite (_get_md5sum_file_run b64decode self w w1 c _ _ Hb); simpl.
    split; [|done].
    by rewrite (_get_md5sum_file_run b64decode self _ _ c _ _
                  (blob_service_cached self (log_calls _ w1) c Hs1)). }
  split; [apply Hmd5|]. split.
  - unfold isdir, bind.
    destruct (Hmd5 (PathInfo.bucket pi) (PathInfo.path pi)) as [H1 H2].
    destruct (_get_md5sum_file b64decode self _ _ w) as [r w2] eqn:E; simpl in *.
    assert (Hw : snd (match r with
                      | Ok a => ret (match a with Some _ => false | None => true end) w2
                      | Raise e => (Raise e, w2)
                      | OutOfFuel => (OutOfFuel, w2)
                      end) = w2) by (by destruct r).
    rewrite Hw.
    destruct (_get_md5sum_file b64decode self _ _ w2) as [r' w3]; simpl in *.
    subst r'. by destruct r.
  - unfold exists_.
    rewrite (bind_blob_service self _ _ _ _ Hb).
    rewrite sdk_query_snd.
    rewrite (bind_blob_service self _ _ _ _
               (blob_service_cached self (log_calls _ w1) c Hs1)).
    unfold sdk_query; simpl.
    by destruct (sdk_exists _ _ _ _).
Qed.

End LifetimeFacts.

(** ** The requests and the failures of a walk *)

Section WalkFacts.

Context {Store : Type} {sdk : BlockBlobService Store}.
Variable b64decode : string -> exn + list Byte.byte.
Variable self : AzureTree.

Local Abbreviation collecting q :=
  (fun fname (acc : list PathInfo.t) =>
     if endswith fname "/" then ret acc
     else
       bind (_get_md5sum_file b64decode self (PathInfo.bucket q) fname)
         (fun md5 => match md5 with
                     | None => ret acc
                     | Some _ => ret (app acc [PathInfo.replace q fname])
                     end)).

Local Abbreviation lookups_return c s q names :=
  (Forall (fun fname => endswith fname "/" = false ->
             exists h, hash_lookup b64decode c s (PathInfo.bucket q) fname = inr h) names).

Lemma log_calls_nil (w : World Store) : log_calls [] w = w.
Proof. destruct w. unfold log_calls; simpl. by rewrite app_nil_r. Qed.

(** The loop body over the entries of a page does what [walk_names_ref]
    says. *)
Lemma walk_names_run q c s (l : list Blob) :
  forall (acc : list PathInfo.t) (w : World Store),
    blob_service_slot w = Some c ->
    remote w = s ->
    for_each (fun blob => collecting q (name blob)) l acc w
    = (fst (walk_names_ref b64decode c s q (List.map name l) acc),
       log_calls (snd (walk_names_ref b64decode c s q (List.map name l) acc)) w).
Proof.
  induction l as [|b l IH]; intros acc w Hslot Hs.
  - simpl. by rewrite log_calls_nil.
  - change (for_each ?f (b :: l) acc w) with (bind (f b acc) (for_each f l) w).
    unfold bind at 1. cbn [List.map walk_names_ref].
    destruct (endswith (name b) "/") eqn:E.
    + unfold ret at 1. by apply IH.
    + unfold bind at 1.
      rewrite (_get_md5sum_file_run b64decode self w w c _ _ (blob_service_cached self w c Hslot)).
      rewrite Hs.
      destruct (hash_lookup b64decode c s (PathInfo.bucket q) (name b)) as [e|[h|]];
        simpl; [done| |];
        unfold ret at 1; rewrite IH by done; by rewrite log_calls_app.
Qed.

(** The loop over the pages does what [walk_pages_ref] says. *)
Lemma walk_pages_run q c m pages :
  forall s, pages_from c s (PathInfo.bucket q) (PathInfo.path q) m pages ->
  forall fuel (acc : list PathInfo.t) (w : World Store),
    blob_service_slot w = Some c ->
    remote w = s ->
    length pages <= fuel ->
    _list_paths_loop fuel c (PathInfo.bucket q) (PathInfo.path q) m (collecting q) acc w
    = (fst (walk_pages_ref b64decode c s q m pages acc),
       log_calls (snd (walk_pages_ref b64decode c s q m pages acc)) w).
Proof.
  intros s Hp. induction Hp as [m pg Hpg Hlast|m pg rest Hpg Hmore Hrest IH];
    intros fuel acc w Hslot Hs Hfuel;
    (destruct fuel as [|fuel]; [simpl in Hfuel; lia|]);
    cbn [_list_paths_loop walk_pages_ref];
    unfold bind at 1, sdk_query at 1; simpl; rewrite Hs, Hpg;
    unfold bind at 1;
    rewrite (walk_names_run q c s (items pg) acc (log_calls _ w) Hslot Hs);
    destruct (fst (walk_names_ref b64decode c s q (List.map name (items pg)) acc))
      as [acc'| |]; try (by rewrite log_calls_app).
  - rewrite Hlast; simpl. unfold ret. by rewrite log_calls_app, app_nil_r.
  - rewrite Hmore; simpl.
    rewrite (IH fuel); [|done|done|simpl in Hfuel; lia].
    by rewrite !log_calls_app.
Qed.

(** When the lookups return, nothing stops the reference. *)
Lemma walk_names_ref_ok q c s names :
  lookups_return c s q names ->
  forall acc,
    walk_names_ref b64decode c s q names acc
    = (Ok (acc ++ List.map (PathInfo.replace q)
                    (List.filter (is_file b64decode c s (PathInfo.bucket q)) names))%list,
       List.map (get_blob_properties_call (PathInfo.bucket q)) (looked_up names)).
Proof.
  induction 1 as [|fname names Hf Hall IH]; intros acc; simpl.
  - by rewrite app_nil_r.
  - unfold is_file at 1. destruct (endswith fname "/") eqn:E; simpl; [apply IH|].
    destruct (Hf eq_refl) as [h Hl]. rewrite Hl.
    destruct h as [h|]; rewrite IH; simpl; [|done].
    by rewrite <- app_assoc.
Qed.

Lemma walk_pages_ref_ok q c s pages :
  forall m acc,
    lookups_return c s q (listed_names pages) ->
    walk_pages_ref b64decode c s q m pages acc
    = (Ok (acc ++ List.map (PathInfo.replace q)
                    (List.filter (is_file b64decode c s (PathInfo.bucket q))
                       (listed_names pages)))%list,
       walk_requests q m pages).
Proof.
  induction pages as [|pg rest IH]; intros m acc Hall.
  - simpl. by rewrite app_nil_r.
  - unfold listed_names in Hall; simpl in Hall. apply Forall_app in Hall as [H1 H2].
    cbn [walk_pages_ref walk_requests].
    rewrite (walk_names_ref_ok q c s _ H1); simpl.
    rewrite (IH _ _ H2); simpl.
    unfold listed_names; simpl.
    by rewrite List.filter_app, List.map_app, <- app_assoc.
Qed.



Lemma walk_files_run (pi : PathInfo.t) (kwargs : gmap string bool)
    (w w1 : World Store) (c : Client) (pages : list Listing) (fuel : nat) :
  delete "prefix" kwargs = ∅ ->
  blob_service self w = (Ok c, w1) ->
  pages_from c (remote w1) (PathInfo.bucket (listing_root pi kwargs))
    (PathInfo.path (listing_root pi kwargs)) None pages ->
  length pages <= fuel ->
  to_list (walk_files b64decode self fuel pi kwargs) w
  = (fst (walk_pages_ref b64decode c (remote w1) (listing_root pi kwargs) None pages []),
     log_calls (snd (walk_pages_ref b64decode c (remote w1) (listing_root pi kwargs) None pages []))
       w1).
Proof.
  intros Hk Hb Hp Hfuel.
  unfold to_list. rewrite (walk_files_unfold _ _ _ _ _ _ _ Hk).
  unfold _list_paths. rewrite (bind_blob_service _ _ _ _ _ Hb).
  by apply (walk_pages_run _ c None pages _ Hp fuel [] w1
              (blob_service_fills_slot self w w1 c Hb)).
Qed.

(** X10: a walk fetches one page at a time.  When the lookups return, the
    requests [walk_files] sends once it has the client handle are, page
    after page, the page request followed by one property request for each
    entry of that page that is no directory marker, in the order of the
    listing; no property request is sent for a directory marker. *)
Theorem walk_files_requests (pi : PathInfo.t) (kwargs : gmap string bool)
    (w w1 : World Store) (c : Client) (pages : list Listing) (fuel : nat) :
  delete "prefix" kwargs = ∅ ->
  blob_service self w = (Ok c, w1) ->
  pages_from c (remote w1) (PathInfo.bucket (listing_root pi kwargs))
    (PathInfo.path (listing_root pi kwargs)) None pages ->
  length pages <= fuel ->
  lookups_return c (remote w1) (listing_root pi kwargs) (listed_names pages) ->
  calls (snd (to_list (walk_files b64decode self fuel pi kwargs) w))
  = (calls w1 ++ walk_requests (listing_root pi kwargs) None pages)%list.
Proof.
  intros Hk Hb Hp Hfuel Hall.
  rewrite (walk_files_run pi kwargs w w1 c pages fuel Hk Hb Hp Hfuel).
  by rewrite (walk_pages_ref_ok _ c _ pages None [] Hall).
Qed.


(** X12: [walk_files] takes no keyword but [prefix]: with any other
    keyword the call raises [TypeError] and leaves the state as it was, so
    no request is sent and the client handle is not even built. *)
Theorem walk_files_rejects_keywords {Acc} (fuel : nat) (pi : PathInfo.t)
    (kwargs : gmap string bool) (body : PathInfo.t -> Acc -> M Store Acc) (acc : Acc)
    (w : World Store) (k : string) (v : bool) :
  k <> "prefix" ->
  kwargs !! k = Some v ->
  walk_files b64decode self fuel pi kwargs body acc w = (Raise TypeError, w).
Proof.
  intros Hk Hv. apply walk_files_unknown_keyword.
  intros Hempty.
  assert (delete "prefix" kwargs !! k = Some v) as H by (by rewrite lookup_delete_ne).
  rewrite Hempty in H. by rewrite lookup_empty in H.
Qed.

(** The loop of [_list_paths] on a service that always hands out a
    continuation marker: whatever the fuel, it is used up. *)
Lemma _list_paths_loop_never_ends c s bucket prefix :
  (forall m, exists pg,
      sdk_list_blobs c s bucket (Some prefix) None None m = inr pg /\
      truthy (next_marker pg) = true) ->
  forall fuel m (acc : list string) (w : World Store),
    remote w = s ->
    fst (_list_paths_loop fuel c bucket prefix m
           (fun x acc => ret (acc ++ [x])%list) acc w) = OutOfFuel.
Proof.
  intros Hpg. induction fuel as [|fuel IH]; intros m acc w Hs; simpl; [done|].
  destruct (Hpg m) as (pg & Hl & Hm).
  unfold bind at 1, sdk_query at 1; simpl. rewrite Hs, Hl.
  unfold bind at 1. rewrite (for_each_collect (items pg) acc).
  rewrite Hm; simpl. by apply IH.
Qed.

(** X13: [_list_paths] stops only at a page without a continuation
    marker; it keeps no record of the markers it has seen.  On a service
    whose every page carries a marker, a repeated one included, the loop
    never ends: no number of iterations is enough for it to return. *)
Theorem _list_paths_never_ends (bucket prefix : string) (w w1 : World Store) (c : Client) :
  blob_service self w = (Ok c, w1) ->
  (forall m, exists pg,
      sdk_list_blobs c (remote w1) bucket (Some prefix) None None m = inr pg /\
      truthy (next_marker pg) = true) ->
  forall fuel, fst (to_list (_list_paths self fuel bucket prefix) w) = OutOfFuel.
Proof.
  intros Hb Hpg fuel. unfold to_list, _list_paths.
  rewrite (bind_blob_service _ _ _ _ _ Hb).
  by apply (_list_paths_loop_never_ends c (remote w1)).
Qed.

End WalkFacts.

(** ** The further properties on the example services *)



Lemma blob_service_failure_not_cached_witness :
  List.filter is_construction
    (calls (snd (blob_service (sdk := DownService.service) tree_example
                   (snd (blob_service (sdk := DownService.service) tree_example
                           DownService.fresh)))))
  = [BlockBlobService_new (_conn_kwargs tree_example);
     BlockBlobService_new (_conn_kwargs tree_example)] /\
  List.filter is_construction
    (calls (snd (blob_service (sdk := sdk_example) tree_unconfigured
                   (snd (blob_service (sdk := sdk_example) tree_unconfigured
                           (MemStore.fresh ∅))))))
  = [BlockBlobService_new (_conn_kwargs tree_unconfigured);
     BlockBlobService_new (_conn_kwargs tree_unconfigured)].
Proof.
  split.
  - apply (proj2 (proj2 (proj2 (proj2
             (blob_service_failure_not_cached (sdk := DownService.service) tree_example
                DownService.fresh
                (snd (blob_service (sdk := DownService.service) tree_example DownService.fresh))
                DownService.unreachable eq_refl))))).
  - apply (proj2 (proj2 (proj2 (proj2
             (blob_service_failure_not_cached (sdk := sdk_example) tree_unconfigured
                (MemStore.fresh ∅)
                (snd (blob_service (sdk := sdk_example) tree_unconfigured (MemStore.fresh ∅)))
                (OtherError "ValueError: You need to provide an account name")
                eq_refl))))).
Defined.

(** A constructor that raises: the error leaves [blob_service] before the
    probe, so the construction is all that is logged and the store is
    untouched. *)
Example blob_service_constructor_raises :
  blob_service (sdk := sdk_example) tree_unconfigured (MemStore.fresh ∅)
  = (Raise (OtherError "ValueError: You need to provide an account name"),
     log_calls [BlockBlobService_new (_conn_kwargs tree_unconfigured)] (MemStore.fresh ∅)).
Proof. vm_compute. reflexivity. Qed.

Lemma reads_leave_store_witness :
  quiet client_example world_ready
    (run_ops (sdk := sdk_example) Base64.b64decode tree_example
       [op_walk_files 3 (PATH_CLS "azure://c/a") ∅;
        op_exists (PATH_CLS "azure://c/a/x") true;
        op_get_file_hash (PATH_CLS "azure://c/missing");
        op_isdir (PATH_CLS "azure://c/a/y");
        op_list_paths 1 "c" "a/"]
       world_ready).
Proof.
  apply (reads_leave_store (sdk := sdk_example) Base64.b64decode tree_example
           client_example world_ready); vm_compute; reflexivity.
Defined.


Lemma reads_repeat_witness :
  fst (get_file_hash (sdk := sdk_example) Base64.b64decode tree_example (PATH_CLS "azure://c/a/x")
         (snd (get_file_hash (sdk := sdk_example) Base64.b64decode tree_example
                 (PATH_CLS "azure://c/a/x") world_fresh)))
  = fst (get_file_hash (sdk := sdk_example) Base64.b64decode tree_example
           (PATH_CLS "azure://c/a/x") world_fresh) /\
  fst (isdir (sdk := sdk_example) Base64.b64decode tree_example (PATH_CLS "azure://c/a/x")
         (snd (isdir (sdk := sdk_example) Base64.b64decode tree_example
                 (PATH_CLS "azure://c/a/x") world_fresh)))
  = fst (isdir (sdk := sdk_example) Base64.b64decode tree_example
           (PATH_CLS "azure://c/a/x") world_fresh) /\
  fst (exists_ (sdk := sdk_example) tree_example (PATH_CLS "azure://c/a/x") true
         (snd (exists_ (sdk := sdk_example) tree_example (PATH_CLS "azure://c/a/x") true
                 world_fresh)))
  = fst (exists_ (sdk := sdk_example) tree_example (PATH_CLS "azure://c/a/x") true world_fresh).
Proof.
  apply (reads_repeat (sdk := sdk_example) Base64.b64decode tree_example
           (PATH_CLS "azure://c/a/x") true world_fresh world_ready client_example
           world_ready_run).
Defined.

Lemma walk_files_requests_witness :
  calls (snd (to_list (walk_files (sdk := sdk_example) Base64.b64decode tree_example 3
                         (PATH_CLS "azure://c/a") ∅) world_fresh))
  = (calls world_ready ++
     [list_blobs_call "c" (Some "a/") None None None;
      list_blobs_call "c" (Some "a/") None None (Some "a/x");
      get_blob_properties_call "c" "a/x";
      list_blobs_call "c" (Some "a/") None None (Some "a/y");
      get_blob_properties_call "c" "a/y"])%list.
Proof.
  replace [list_blobs_call "c" (Some "a/") None None None;
           list_blobs_call "c" (Some "a/") None None (Some "a/x");
           get_blob_properties_call "c" "a/x";
           list_blobs_call "c" (Some "a/") None None (Some "a/y");
           get_blob_properties_call "c" "a/y"]
    with (walk_requests (listing_root (PATH_CLS "azure://c/a") ∅) None pages_example)
    by (vm_compute; reflexivity).
  apply (walk_files_requests (sdk := sdk_example) Base64.b64decode tree_example
           (PATH_CLS "azure://c/a") ∅ world_fresh world_ready client_example pages_example 3).
  - vm_compute. reflexivity.
  - exact world_ready_run.
  - exact pages_example_listed.
  - simpl. lia.
  - repeat constructor; intros _; eexists; vm_compute; reflexivity.
Defined.


Lemma walk_files_rejects_keywords_witness :
  to_list (walk_files (sdk := sdk_example) Base64.b64decode tree_example 3
             (PATH_CLS "azure://c/a") {["recursive" := true]}) world_fresh
  = (Raise TypeError, world_fresh).
Proof.
  unfold to_list.
  apply (walk_files_rejects_keywords (sdk := sdk_example) Base64.b64decode tree_example 3
           (PATH_CLS "azure://c/a") {["recursive" := true]} _ [] world_fresh "recursive" true).
  - discriminate.
  - vm_compute. reflexivity.
Defined.

Lemma _list_paths_never_ends_witness :
  fst (to_list (_list_paths (sdk := StuckService.service) tree_example 1000 "c" "a/")
         StuckService.fresh) = OutOfFuel.
Proof.
  apply (_list_paths_never_ends (sdk := StuckService.service) tree_example "c" "a/"
           StuckService.fresh
           (snd (blob_service (sdk := StuckService.service) tree_example StuckService.fresh))
           client_example).
  - vm_compute. reflexivity.
  - intros m. exists StuckService.page. split; reflexivity.
Defined.
